(** * PyPore [database.py]: a shallow embedding and its verified properties

    The module offers three adapters (a delimited text file, a MySQL
    connection, a Google spreadsheet) behind a factory.  This development
    embeds the text adapter, the MySQL adapter and the factory as executable
    Rocq functions and settles the properties claimed of them.

    Conventions of the embedding:
    - Python [str] values are [string]; [int] values are [Z]; floats,
      [unicode] and [QString] values and numpy arrays are left out.
    - A call either returns a value or raises: [result A].
    - The file system is a finite map from paths to contents; every path
      can be created and written, a file has one path, and the content of
      a file is its text (decoding is not modelled).
    - The MySQL server is a parameter: which statements it executes and
      what it answers.  Statements are not interpreted: the connection
      records which were executed and which a commit of the adapter has
      covered.
    - Python 2 and Python 3 differ in three places the module touches:
      [hasattr(s, "__iter__")] on a [str], the builtin name [file], and
      newline translation when a text file is iterated.  The interpreter
      generation is therefore a parameter, [pyversion], of the functions
      that depend on it. *)

From Stdlib Require Import String Ascii List ZArith Lia Bool DecimalString.
From stdpp Require Import gmap strings.
Import ListNotations.
Open Scope string_scope.

(** stdpp blocks the unfolding of string concatenation; the proofs below
    compute with it. *)
#[local] Arguments String.append !_ _ / : simpl nomatch.

(** ** Scalars, exceptions and results *)

(** The scalar values of a field. *)
Inductive scalar : Type :=
| SNone
| SBool (b : bool)
| SInt (z : Z)
| SStr (s : string).

(** What the relational adapter puts in a [DatabaseError]: the message
    template of [execute] and [read] is filled with the statement, that of
    [insert] with the row and the table. *)
Inductive db_message : Type :=
| UnableToExecute (statement : string)
| UnableToAddRow (row : list scalar) (table : string).

Inductive exn : Type :=
| AssertionError
| IndexError
| TypeError
| ValueError
| NameError (name : string)
| AttributeError
| IOError
| DatabaseError (error : db_message).

Inductive result (A : Type) : Type :=
| Return (a : A)
| Raise (e : exn).
Arguments Return {A} a.
Arguments Raise {A} e.

#[global] Instance result_ret : MRet result := @Return.

#[global] Instance result_bind : MBind result :=
  fun A B (k : A -> result B) (r : result A) =>
    match r with
    | Return a => k a
    | Raise e => Raise e
    end.

(** A list comprehension whose body may raise: elements are evaluated in
    order and the first exception ends the comprehension. *)
Fixpoint traverse {A B : Type} (f : A -> result B) (l : list A) : result (list B) :=
  match l with
  | [] => Return []
  | a :: l' => b ← f a; bs ← traverse f l'; Return (b :: bs)
  end.

Definition is_raise {A : Type} (r : result A) : bool :=
  match r with Return _ => false | Raise _ => true end.

(** ** Python string operations used by the module *)

Module PyStr.

Definition LF : ascii := ascii_of_nat 10.
Definition CR : ascii := ascii_of_nat 13.
Definition TAB : ascii := ascii_of_nat 9.
Definition DQUOTE : ascii := ascii_of_nat 34.
Definition BACKSLASH : ascii := ascii_of_nat 92.

Definition char (c : ascii) : string := String c EmptyString.

(** [c in chars] for a one-character [c]. *)
Fixpoint mem (c : ascii) (chars : string) : bool :=
  match chars with
  | EmptyString => false
  | String d chars' => Ascii.eqb c d || mem c chars'
  end.

(** [s.endswith(suffix)] *)
Definition endswith (s suffix : string) : bool :=
  let n := String.length s in
  let k := String.length suffix in
  (k <=? n)%nat && String.eqb (substring (n - k) k s) suffix.

(** [s.lstrip(chars)], [s.rstrip(chars)], [s.strip(chars)] with an explicit
    character set: the longest prefix, the longest suffix, or both, made of
    characters of [chars] are removed. *)
Fixpoint lstrip (chars s : string) : string :=
  match s with
  | EmptyString => EmptyString
  | String c s' => if mem c chars then lstrip chars s' else s
  end.

Fixpoint rstrip (chars s : string) : string :=
  match s with
  | EmptyString => EmptyString
  | String c s' =>
      match rstrip chars s' with
      | EmptyString => if mem c chars then EmptyString else char c
      | r => String c r
      end
  end.

Definition strip (chars s : string) : string := rstrip chars (lstrip chars s).

(** [s.startswith(pat)] *)
Fixpoint startswith (s pat : string) {struct pat} : bool :=
  match pat with
  | EmptyString => true
  | String a pat' =>
      match s with
      | EmptyString => false
      | String b s' => Ascii.eqb a b && startswith s' pat'
      end
  end.

(** The scanning loop shared by [split], [replace] and [count]: occurrences
    of the pattern are found left to right and do not overlap; [skip] counts
    the characters of a matched occurrence that are still to be passed. *)
Fixpoint split_go (sep s : string) (skip : nat) (cur : string) : list string :=
  match s with
  | EmptyString => [cur]
  | String c s' =>
      match skip with
      | S k => split_go sep s' k cur
      | O =>
          if startswith s sep
          then cur :: split_go sep s' (String.length sep - 1) EmptyString
          else split_go sep s' 0 (cur ++ char c)
      end
  end.

(** [s.split(sep)] with an explicit separator; the empty separator raises
    [ValueError]. *)
Definition split (sep s : string) : result (list string) :=
  match sep with
  | EmptyString => Raise ValueError
  | _ => Return (split_go sep s 0 EmptyString)
  end.

(** [sep.join(parts)] *)
Definition join (sep : string) (parts : list string) : string :=
  String.concat sep parts.

Fixpoint replace_go (old new s : string) (skip : nat) : string :=
  match s with
  | EmptyString => EmptyString
  | String c s' =>
      match skip with
      | S k => replace_go old new s' k
      | O =>
          if startswith s old
          then new ++ replace_go old new s' (String.length old - 1)
          else String c (replace_go old new s' 0)
      end
  end.

Fixpoint intersperse (new s : string) : string :=
  match s with
  | EmptyString => new
  | String c s' => new ++ String c (intersperse new s')
  end.

(** [s.replace(old, new)]; with an empty [old], Python inserts [new] before
    every character and at the end. *)
Definition replace (old new s : string) : string :=
  match old with
  | EmptyString => intersperse new s
  | _ => replace_go old new s 0
  end.

Fixpoint count_go (sub s : string) (skip : nat) : nat :=
  match s with
  | EmptyString => 0
  | String c s' =>
      match skip with
      | S k => count_go sub s' k
      | O =>
          if startswith s sub
          then S (count_go sub s' (String.length sub - 1))
          else count_go sub s' 0
      end
  end.

(** [s.count(sub)] *)
Definition count (sub s : string) : nat :=
  match sub with
  | EmptyString => S (String.length s)
  | _ => count_go sub s 0
  end.

(** [s.lower()] on ASCII letters. *)
Definition lower_char (c : ascii) : ascii :=
  let n := nat_of_ascii c in
  if (65 <=? n)%nat && (n <=? 90)%nat then ascii_of_nat (n + 32) else c.

Fixpoint lower (s : string) : string :=
  match s with
  | EmptyString => EmptyString
  | String c s' => String (lower_char c) (lower s')
  end.

(** [str(n)] and ['{}'.format(n)] of an integer: its decimal numeral. *)
Definition of_int (z : Z) : string := NilZero.string_of_int (Z.to_int z).

(** The characters of a string, as one-character strings (iteration over a
    [str]). *)
Fixpoint chars_of (s : string) : list string :=
  match s with
  | EmptyString => []
  | String c s' => char c :: chars_of s'
  end.

End PyStr.

Import PyStr.

(** ** Interpreter generation, objects and name resolution *)

Inductive pyversion : Type := Py2 | Py3.

(** The objects a name of the module can be bound to. *)
#[warnings="-register-all"] Inductive object : Type :=
| OStr (s : string)
| OStrList (l : list string)
| ODict (keys : list string) (values : list object)
| OModule (name : string)
| OClass (name : string)
| OFunction (name : string)
| OBuiltin (name : string).

Definition env : Type := list (string * object).

Fixpoint env_get (e : env) (name : string) : option object :=
  match e with
  | [] => None
  | (n, o) :: e' => if String.eqb n name then Some o else env_get e' name
  end.

Definition SQL_TYPES : list string := ["mysql"; "postgresql"; "sqlite"].
Definition TEXT_TABLE_TYPES : list string := ["excel"; "text"; "csv"].
Definition GOOGLE_SPREADSHEET_TYPES : list string := ["google"].

(** The global names of the module once it is loaded: its two imports, its
    three constants, its classes and its function (lines 12-17, 19, 60, 94,
    145, 151).  Neither [Qc] nor [datetime] is among them. *)
Definition module_globals : env :=
  [ ("np", OModule "numpy");
    ("collections", OModule "collections");
    ("SQL_TYPES", OStrList SQL_TYPES);
    ("TEXT_TABLE_TYPES", OStrList TEXT_TABLE_TYPES);
    ("GOOGLE_SPREADSHEET_TYPES", OStrList GOOGLE_SPREADSHEET_TYPES);
    ("GoogleSpreadsheetInterface", OClass "GoogleSpreadsheetInterface");
    ("TextInterface", OClass "TextInterface");
    ("MySQLDatabaseInterface", OClass "MySQLDatabaseInterface");
    ("DatabaseError", OClass "DatabaseError");
    ("DatabaseFactory", OFunction "DatabaseFactory") ].

(** The builtin names, restricted to the free names that occur in the
    module's function bodies: Python 2 has the builtin type [file], Python 3
    has none of them. *)
Definition builtins (v : pyversion) : env :=
  match v with
  | Py2 => [("file", OBuiltin "file")]
  | Py3 => []
  end.

(** Evaluation of a name inside a function body: local scope, then module
    globals, then builtins; an unbound name raises [NameError]. *)
Definition lookup_name (v : pyversion) (locals globals : env) (name : string)
  : result object :=
  match env_get locals name with
  | Some o => Return o
  | None =>
      match env_get globals name with
      | Some o => Return o
      | None =>
          match env_get (builtins v) name with
          | Some o => Return o
          | None => Raise (NameError name)
          end
      end
  end.

(** [str(x)] and ['{}'.format(x)] of a scalar. *)
Definition str (x : scalar) : string :=
  match x with
  | SNone => "None"
  | SBool true => "True"
  | SBool false => "False"
  | SInt z => of_int z
  | SStr s => s
  end.

(** ** The text adapter: [TextInterface] *)

Module TextInterface.

(** What a caller can pass as [data]: a scalar, or a list or tuple whose
    entries are scalars or rows (lists or tuples) of scalars. *)
Inductive seqkind : Type := KList | KTuple.

Inductive entry : Type :=
| EScalar (x : scalar)
| ERow (k : seqkind) (fields : list scalar).

Inductive payload : Type :=
| DScalar (x : scalar)
| DTable (k : seqkind) (rows : list entry).

(** The attribute [self.file] holds whatever object the constructor was
    given. *)
Record t : Type := { file : object }.

(** [TextInterface.__init__] *)
Definition __init__ (file : object) : t := {| file := file |}.

(** [hasattr(data, "__iter__")]: lists and tuples define [__iter__]; a [str]
    does so on Python 3 only; [None], booleans and integers never do. *)
Definition has_iter (v : pyversion) (data : payload) : bool :=
  match data with
  | DTable _ _ => true
  | DScalar (SStr _) => match v with Py2 => false | Py3 => true end
  | DScalar _ => false
  end.

(** [data[0]] *)
Definition getitem0 (data : payload) : result entry :=
  match data with
  | DTable _ (e :: _) => Return e
  | DTable _ [] => Raise IndexError
  | DScalar (SStr (String c _)) => Return (EScalar (SStr (char c)))
  | DScalar (SStr EmptyString) => Raise IndexError
  | DScalar _ => Raise TypeError
  end.

(** The objects computed by the guard [type(data[0] == str)] of line 89:
    the comparison yields a boolean, [type] of it a type object, and a type
    object is true in a condition. *)
Inductive guard_obj : Type :=
| GBool (b : bool)
| GType (name : string).

(** [x == str]: no entry is equal to the type object [str]. *)
Definition eq_str_type (x : entry) : guard_obj := GBool false.

(** [type(o)] *)
Definition type_ (o : guard_obj) : guard_obj :=
  match o with
  | GBool _ => GType "bool"
  | GType _ => GType "type"
  end.

(** Truth value of an object in an [if]. *)
Definition truth (o : guard_obj) : bool :=
  match o with
  | GBool b => b
  | GType _ => true
  end.

(** Iteration over [data] and over one of its entries. *)
Definition iter_payload (data : payload) : result (list entry) :=
  match data with
  | DTable _ rows => Return rows
  | DScalar (SStr s) => Return (map (fun c => EScalar (SStr c)) (chars_of s))
  | DScalar _ => Raise TypeError
  end.

Definition iter_entry (e : entry) : result (list scalar) :=
  match e with
  | ERow _ fields => Return fields
  | EScalar (SStr s) => Return (map SStr (chars_of s))
  | EScalar _ => Raise TypeError
  end.

(** ["\n".join( seperator.join( str(i) for i in entry ) for entry in data )] *)
Definition render (seperator : string) (data : payload) : result string :=
  entries ← iter_payload data;
  lines ← traverse (fun e => fields ← iter_entry e;
                             Return (join seperator (map str fields))) entries;
  Return (join (char LF) lines).

(** The override of the separator by the file name's suffix (lines 72-75
    and 85-88). *)
Definition effective_separator (name seperator : string) : string :=
  if endswith name ".csv" then ","
  else if endswith name ".tsv" then char TAB
  else seperator.

(** Iterating over a file opened in mode ['r'] yields its lines, each with
    its line end.  Python 2 on POSIX ends a line at LF only; Python 3 first
    translates CR LF and a lone CR to LF. *)
Fixpoint lines_go (s cur : string) : list string :=
  match s with
  | EmptyString => match cur with EmptyString => [] | _ => [cur] end
  | String c s' =>
      if Ascii.eqb c LF then (cur ++ char LF) :: lines_go s' EmptyString
      else lines_go s' (cur ++ char c)
  end.

Fixpoint universal_newlines (s : string) (after_cr : bool) : string :=
  match s with
  | EmptyString => EmptyString
  | String c s' =>
      if Ascii.eqb c CR then String LF (universal_newlines s' true)
      else if Ascii.eqb c LF && after_cr then universal_newlines s' false
      else String c (universal_newlines s' false)
  end.

Definition file_lines (v : pyversion) (content : string) : list string :=
  match v with
  | Py2 => lines_go content EmptyString
  | Py3 => lines_go (universal_newlines content false) EmptyString
  end.

(** The characters given to [strip] on line 76. *)
Definition line_end_chars : string := String CR (String LF (char TAB)).

(** [tuple( line.strip("\r\n\t").split(seperator) )] *)
Definition row_of_line (seperator line : string) : result (list string) :=
  split seperator (strip line_end_chars line).

(** [TextInterface.read].  [open] raises [TypeError] when [self.file] is not
    a path and [IOError] when no such file exists. *)
Definition read (v : pyversion) (fs : gmap string string) (self : t)
    (seperator : string) : result (list (list string)) :=
  match file self with
  | OStr name =>
      match fs !! name with
      | None => Raise IOError
      | Some content =>
          let seperator := effective_separator name seperator in
          traverse (row_of_line seperator) (file_lines v content)
      end
  | _ => Raise TypeError
  end.

(** [outfile.write( data )]: a file object accepts a [str] only. *)
Definition outfile_write (fs : gmap string string) (name : string) (data : payload)
  : gmap string string * result unit :=
  match data with
  | DScalar (SStr s) => (<[name := s]> fs, Return tt)
  | _ => (fs, Raise TypeError)
  end.

(** [TextInterface.write].  The result is the file system after the call
    together with the outcome.  Opening in mode ['w'] creates or truncates
    the file before anything is written. *)
Definition write (v : pyversion) (fs : gmap string string) (self : t)
    (data : payload) (seperator : string) : gmap string string * result unit :=
  (* line 83 *)
  if negb (has_iter v data) then (fs, Raise AssertionError)
  else
    (* line 84 *)
    match file self with
    | OStr name =>
        let fs := <[name := EmptyString]> fs in
        (* lines 85-88 *)
        let seperator := effective_separator name seperator in
        (* line 89 *)
        match getitem0 data with
        | Raise e => (fs, Raise e)
        | Return first =>
            if truth (type_ (eq_str_type first))
            then (* line 90 *) outfile_write fs name data
            else
              (* line 92 *)
              match render seperator data with
              | Raise e => (fs, Raise e)
              | Return text => (<[name := text]> fs, Return tt)
              end
        end
    | _ => (fs, Raise TypeError)
    end.

End TextInterface.

(** ** The relational adapter: [MySQLDatabaseInterface] *)

Module MySQLDatabaseInterface.

(** The connection and its cursor, as far as the adapter can observe them:
    the statements executed in the open transaction, the statements a commit
    has made durable, the number of commits, and the result set the cursor
    holds.  MySQLdb opens connections with autocommit off. *)
Record connection : Type := {
  pending : list string;
  committed : list string;
  commits : nat;
  result_set : list (list scalar)
}.

Section Server.

(** The server is an external collaborator: [accepts c q] tells whether it
    executes statement [q] when the connection is in state [c] (otherwise
    the driver raises), and [answer c q] is the result set it produces. *)
Variable accepts : connection -> string -> bool.
Variable answer : connection -> string -> list (list scalar).

(** [self.cursor.execute( statement )]; [None] when the driver raises. *)
Definition cursor_execute (c : connection) (statement : string) : option connection :=
  if accepts c statement
  then Some {| pending := pending c ++ [statement];
               committed := committed c;
               commits := commits c;
               result_set := answer c statement |}
  else None.

(** [self.cursor.fetchall()] hands over the rows of the result set. *)
Definition cursor_fetchall (c : connection) : connection * list (list scalar) :=
  ({| pending := pending c; committed := committed c; commits := commits c;
      result_set := [] |}, result_set c).

(** [self.db.commit()] *)
Definition db_commit (c : connection) : connection :=
  {| pending := [];
     committed := committed c ++ pending c;
     commits := S (commits c);
     result_set := result_set c |}.

(** [MySQLDatabaseInterface.execute] *)
Definition execute (c : connection) (statement : string) : connection * result unit :=
  match cursor_execute c statement with
  | None => (c, Raise (DatabaseError (UnableToExecute statement)))
  | Some c' => (db_commit c', Return tt)
  end.

(** [MySQLDatabaseInterface.read] *)
Definition read (c : connection) (statement : string)
  : connection * result (list (list scalar)) :=
  match cursor_execute c statement with
  | None => (c, Raise (DatabaseError (UnableToExecute statement)))
  | Some c' => let (c'', rows) := cursor_fetchall c' in (c'', Return rows)
  end.

(** [not item] *)
Definition falsy (item : scalar) : bool :=
  match item with
  | SNone => true
  | SBool b => negb b
  | SInt z => (z =? 0)%Z
  | SStr s => String.eqb s EmptyString
  end.

(** [isinstance( item, str )] *)
Definition is_str (item : scalar) : bool :=
  match item with
  | SStr _ => true
  | _ => false
  end.

(** The two chained [replace] calls of line 130 applied to [str(item)]: first
    every double quote becomes two double quotes, then every backslash
    becomes two backslashes. *)
Definition escape (s : string) : string :=
  replace (char BACKSLASH) (String BACKSLASH (char BACKSLASH))
    (replace (char DQUOTE) (String DQUOTE (char DQUOTE)) s).

(** One element of the comprehension of [_build_insert]. *)
Definition literal (item : scalar) : string :=
  if is_str item || falsy item
  then char DQUOTE ++ escape (str item) ++ char DQUOTE
  else str item.

(** [MySQLDatabaseInterface._build_insert] *)
Definition _build_insert (tuple : list scalar) : string :=
  join "," (map literal tuple).

(** ['INSERT INTO {table} VALUES ( {vals} )'.format( ... )] *)
Definition insert_statement (table : string) (row : list scalar) : string :=
  "INSERT INTO " ++ table ++ " VALUES ( " ++ _build_insert row ++ " )".

(** [MySQLDatabaseInterface.insert]: the loop over the rows, the commit that
    follows it, and the handler that turns any exception of the loop into a
    [DatabaseError] carrying the row at hand and the table. *)
Fixpoint insert (c : connection) (table : string) (data : list (list scalar))
  : connection * result unit :=
  match data with
  | [] => (db_commit c, Return tt)
  | row :: rest =>
      match cursor_execute c (insert_statement table row) with
      | None => (c, Raise (DatabaseError (UnableToAddRow row table)))
      | Some c' => insert c' table rest
      end
  end.

End Server.

(** A calendar date as [datetime.date] holds it. *)
Record date : Type := { year : Z; month : Z; day : Z }.

(** What [_datify] can be given: a scalar or a date object.  (No value of
    the embedding is a [QString].) *)
Inductive datify_arg : Type :=
| AScalar (x : scalar)
| ADate (d : date).

(** The variable [date] inside [_datify] holds the text it was given or,
    after a [split], a list of pieces. *)
Inductive date_var : Type :=
| VText (s : string)
| VParts (l : list string).

(** [date.count( seg )] on a [str] (occurrences of the substring) and on a
    list (elements equal to [seg]). *)
Definition var_count (seg : string) (d : date_var) : nat :=
  match d with
  | VText s => count seg s
  | VParts l => List.length (filter (String.eqb seg) l)
  end.

(** [date.split( seg )]: a list has no such method. *)
Definition var_split (seg : string) (d : date_var) : result date_var :=
  match d with
  | VText s => parts ← split seg s; Return (VParts parts)
  | VParts _ => Raise AttributeError
  end.

(** One round of the loop of lines 140-142. *)
Definition datify_step (seg : string) (d : date_var) : result date_var :=
  if (var_count seg d =? 2)%nat then var_split seg d else Return d.

(** [date[i]] *)
Definition var_getitem (d : date_var) (i : nat) : result string :=
  match d with
  | VText s =>
      match String.get i s with
      | Some c => Return (char c)
      | None => Raise IndexError
      end
  | VParts l =>
      match nth_error l i with
      | Some p => Return p
      | None => Raise IndexError
      end
  end.

Section Datify.

(** The builtin [int] applied to a [str] and the constructor
    [datetime.date] are library functions; both raise [ValueError] on what
    they do not accept. *)
Variable int : string -> result Z.
Variable datetime_date : Z -> Z -> Z -> result date.

(** [MySQLDatabaseInterface._datify], run with the interpreter generation
    [v] in a module whose global names are [globals].  The names [Qc] and
    [datetime] are free in the body (its locals are [self], [date] and
    [seg]), so each is looked up among the globals, then the builtins, when
    the expression that mentions it is evaluated.  What follows a
    successful lookup, the attributes [QString] and [date] of the objects
    found, is taken to be there; in the module as written the lookup of
    [Qc] fails first. *)
Definition _datify (v : pyversion) (globals : env) (arg : datify_arg)
  : result (option date) :=
  (* line 136: Qc.QString is evaluated first; only a str passes the test *)
  _ ← lookup_name v [] globals "Qc";
  match arg with
  | AScalar (SStr s) =>
      (* line 138: datetime.date is evaluated; a str is not a date *)
      _ ← lookup_name v [] globals "datetime";
      (* lines 140-142 *)
      d ← datify_step "/" (VText s);
      d ← datify_step "-" d;
      (* line 143: the callee, then the arguments from left to right *)
      _ ← lookup_name v [] globals "datetime";
      a ← var_getitem d 0; y ← int a;
      b ← var_getitem d 1; m ← int b;
      c ← var_getitem d 2; dd ← int c;
      r ← datetime_date y m dd;
      Return (Some r)
  | _ => Return None
  end.

End Datify.

End MySQLDatabaseInterface.

(** ** The factory *)

(** The adapter objects.  Logging in to the spreadsheet service and
    connecting to the server, which the constructors of the first and the
    third do, are outside this embedding. *)
Inductive adapter : Type :=
| Google (title email password source key sheet : object)
| Text (a : TextInterface.t)
| MySQL (db user password host : object).

(** Binding of the arguments of a call [DatabaseFactory( tag, **kwargs )]
    to the parameters [db_type] and [**kwargs]: a keyword named [db_type]
    gives the first parameter a second value, and the call raises
    [TypeError] before the body runs; every other keyword goes into the
    dictionary [kwargs]. *)
Definition bind_factory_arguments (kwargs : list (string * object)) : result unit :=
  if existsb (String.eqb "db_type") (map fst kwargs)
  then Raise TypeError
  else Return tt.

(** [DatabaseFactory( db_type, **kwargs )].  The keyword arguments arrive in
    the local dictionary [kwargs]; the body names them as plain variables.
    [Return None] is the fall off the end of the function. *)
Definition DatabaseFactory (v : pyversion) (db_type : string)
    (kwargs : list (string * object)) : result (option adapter) :=
  _ ← bind_factory_arguments kwargs;
  let locals := [("db_type", OStr db_type);
                 ("kwargs", ODict (map fst kwargs) (map snd kwargs))] in
  let name := lookup_name v locals module_globals in
  if existsb (String.eqb (lower db_type)) GOOGLE_SPREADSHEET_TYPES then
    title ← name "title"; email ← name "email"; password ← name "password";
    source ← name "source"; key ← name "key"; sheet ← name "sheet";
    Return (Some (Google title email password source key sheet))
  else if existsb (String.eqb (lower db_type)) TEXT_TABLE_TYPES then
    file ← name "file";
    Return (Some (Text (TextInterface.__init__ file)))
  else if String.eqb (lower db_type) "mysql" then
    db ← name "db"; user ← name "user"; password ← name "password";
    host ← name "host";
    Return (Some (MySQL db user password host))
  else Return None.

(** * Vocabulary of the properties *)

Import TextInterface MySQLDatabaseInterface.

(** Every character of [s] belongs to [chars]. *)
Fixpoint all_in (chars s : string) : bool :=
  match s with
  | EmptyString => true
  | String c s' => mem c chars && all_in chars s'
  end.

(** [s] begins, respectively ends, with a character of [chars]. *)
Definition starts_in (chars s : string) : bool :=
  match s with
  | EmptyString => false
  | String c _ => mem c chars
  end.

Fixpoint ends_in (chars s : string) : bool :=
  match s with
  | EmptyString => false
  | String c EmptyString => mem c chars
  | String _ s' => ends_in chars s'
  end.

(** [s[n:]] *)
Fixpoint drop_chars (n : nat) (s : string) : string :=
  match n, s with
  | S k, String _ s' => drop_chars k s'
  | _, _ => s
  end.

(** Character-wise substitution: every [a] becomes [new]. *)
Fixpoint subst_char (a : ascii) (new s : string) : string :=
  match s with
  | EmptyString => EmptyString
  | String c s' =>
      if Ascii.eqb a c then new ++ subst_char a new s' else String c (subst_char a new s')
  end.

(** What quoting does to one character, to a text, and the quoted literal
    of a text. *)
Definition escape_char (c : ascii) : string :=
  if Ascii.eqb DQUOTE c then String DQUOTE (char DQUOTE)
  else if Ascii.eqb BACKSLASH c then String BACKSLASH (char BACKSLASH)
  else char c.

Fixpoint escaped (s : string) : string :=
  match s with
  | EmptyString => EmptyString
  | String c s' => escape_char c ++ escaped s'
  end.

Definition quoted (s : string) : string := char DQUOTE ++ escaped s ++ char DQUOTE.

(** The reading of one line as the specification words it: the listed
    characters are stripped at the end of the line only and the start of the
    line is kept, then the rest is split on the separator. *)
Definition row_of_line_trailing_only (seperator line : string) : result (list string) :=
  split seperator (rstrip line_end_chars line).

(** The rows of the scenario of the specification. *)
Definition scenario_rows : list entry :=
  [ERow KTuple [SStr "a"; SStr "1"]; ERow KTuple [SStr "b"; SStr "2"]].

(** The number of rows whose statement the server executes before it
    rejects one, when it rejects one: the loop of [insert], watched from
    outside. *)
Fixpoint first_rejected (accepts : connection -> string -> bool)
    (answer : connection -> string -> list (list scalar))
    (c : connection) (table : string) (data : list (list scalar)) : option nat :=
  match data with
  | [] => None
  | row :: rest =>
      match cursor_execute accepts answer c (insert_statement table row) with
      | None => Some 0
      | Some c' => S <$> first_rejected accepts answer c' table rest
      end
  end.

(** A server that rejects the statement inserting the row [(2,)] into table
    [t] and executes every other statement, with empty answers; and a
    freshly opened connection. *)
Definition picky_server (c : connection) (q : string) : bool :=
  negb (String.eqb q (insert_statement "t" [SInt 2])).

Definition no_answer (c : connection) (q : string) : list (list scalar) := [].

Definition fresh_connection : connection :=
  {| pending := []; committed := []; commits := 0; result_set := [] |}.

(** The module's globals had the two missing imports been made. *)
Definition globals_with_imports : env :=
  ("Qc", OModule "PyQt4.QtCore") :: ("datetime", OModule "datetime") :: module_globals.

(** No character of [s] belongs to [chars]. *)
Fixpoint free_of (chars s : string) : bool :=
  match s with
  | EmptyString => true
  | String x s' => negb (mem x chars) && free_of chars s'
  end.

(** The characters that end a line. *)
Definition newline_chars : string := String CR (char LF).

(** The fields of a row that come back from the file as they went in, the
    separator being the character [c]: the line they make is not empty and
    neither begins nor ends with a carriage return, a line feed or a tab,
    and no field holds the separator, a carriage return or a line feed. *)
Definition clean_row (c : ascii) (fields : list string) : bool :=
  negb (String.eqb (join (char c) fields) EmptyString)
  && negb (starts_in line_end_chars (join (char c) fields))
  && negb (ends_in line_end_chars (join (char c) fields))
  && forallb (free_of (String c newline_chars)) fields.

(** The lines of a file whose text is the given lines joined by line
    feeds: each but the last carries its line feed. *)
Fixpoint with_line_ends (lines : list string) : list string :=
  match lines with
  | [] => []
  | [l] => [l]
  | l :: rest => (l ++ char LF) :: with_line_ends rest
  end.

(** The lines of a file whose text is the given lines joined by the line
    end [eol]: each but the last carries the line end, and an empty last
    line is no line. *)
Fixpoint terminated (eol : string) (lines : list string) : list string :=
  match lines with
  | [] => []
  | [l] => match l with EmptyString => [] | _ => [l] end
  | l :: rest => (l ++ eol) :: terminated eol rest
  end.

(** The two line ends. *)
Definition CRLF : string := String CR (char LF).
Definition LF_only : string := char LF.

(** A table of rows as a payload of tuples, and the texts of its fields. *)
Definition payload_of (table : list (list scalar)) : payload :=
  DTable KList (map (ERow KTuple) table).

Definition texts_of (table : list (list scalar)) : list (list string) :=
  map (map str) table.

(** The text line 92 makes of a table. *)
Definition rendered (seperator : string) (table : list (list scalar)) : string :=
  join (char LF) (map (join seperator) (texts_of table)).

(** The first and the last field of a row. *)
Definition first_field (row : list string) : string := hd EmptyString row.
Definition last_field (row : list string) : string := List.last row EmptyString.


(** The two readings of the word sequence for the data of [write]: the
    one of Python, for which a list, a tuple and a text are sequences, and
    the one of the specification, for which a table is a sequence of rows
    and a text is a scalar. *)
Definition sequence_with_text (data : payload) : bool :=
  match data with
  | DTable _ _ => true
  | DScalar (SStr _) => true
  | DScalar _ => false
  end.

Definition sequence_of_rows (data : payload) : bool :=
  match data with
  | DTable _ _ => true
  | DScalar _ => false
  end.

(** * Properties *)

(** ** The string operations *)

Example split_on_comma : split "," "a,1" = Return ["a"; "1"].
Proof. reflexivity. Qed.

Example split_keeps_empty_fields : split "," ",a,," = Return [""; "a"; ""; ""].
Proof. reflexivity. Qed.

Example split_of_empty_text : split "," "" = Return [""].
Proof. reflexivity. Qed.

Example split_on_long_separator : split "ab" "xabyabab" = Return ["x"; "y"; ""; ""].
Proof. reflexivity. Qed.

Example split_on_empty_separator : split "" "a b" = Raise ValueError.
Proof. reflexivity. Qed.

Example strip_both_ends :
  strip line_end_chars (String TAB ("a" ++ char TAB ++ "b" ++ String CR (char LF)))
  = "a" ++ char TAB ++ "b".
Proof. reflexivity. Qed.

Example count_non_overlapping : (count "/" "1/2/3", count "aa" "aaaaa", count "" "abc") = (2, 2, 4).
Proof. reflexivity. Qed.

Example replace_empty_pattern : replace "" "-" "abc" = "-a-b-c-".
Proof. reflexivity. Qed.

Example lower_ascii : lower "CsV_x9Z@[" = "csv_x9z@[".
Proof. reflexivity. Qed.

Example endswith_examples :
  (endswith "out.csv" ".csv", endswith "csv" ".csv", endswith "a.csvx" ".csv")
  = (true, false, false).
Proof. reflexivity. Qed.

Example of_int_examples : (of_int 0, of_int 12, of_int (-50)) = ("0", "12", "-50").
Proof. reflexivity. Qed.

Example lines_py2 :
  file_lines Py2 ("a" ++ String CR (char LF) ++ "b" ++ char CR ++ "c" ++ char LF ++ "d")
  = ["a" ++ String CR (char LF); "b" ++ char CR ++ "c" ++ char LF; "d"].
Proof. reflexivity. Qed.

Example lines_py3 :
  file_lines Py3 ("a" ++ String CR (char LF) ++ "b" ++ char CR ++ "c" ++ char LF ++ "d")
  = ["a" ++ char LF; "b" ++ char LF; "c" ++ char LF; "d"].
Proof. reflexivity. Qed.

Lemma append_empty_r (s : string) : s ++ EmptyString = s.
Proof. induction s as [|c s IH]; simpl; [reflexivity | now rewrite IH]. Qed.

Lemma append_assoc (a b c : string) : (a ++ b) ++ c = a ++ (b ++ c).
Proof. induction a as [|x a IH]; simpl; [reflexivity | now rewrite IH]. Qed.

Lemma lstrip_decompose (chars s : string) :
  exists pre, s = pre ++ lstrip chars s
              /\ all_in chars pre = true
              /\ starts_in chars (lstrip chars s) = false.
Proof.
  induction s as [|c s (pre & Hs & Hpre & Hst)]; simpl.
  - exists EmptyString. repeat split.
  - destruct (mem c chars) eqn:Hc.
    + exists (String c pre). simpl. rewrite Hc, Hpre.
      repeat split; [now f_equal | exact Hst].
    + exists EmptyString. simpl. repeat split. exact Hc.
Qed.

Lemma rstrip_decompose (chars s : string) :
  exists post, s = rstrip chars s ++ post
               /\ all_in chars post = true
               /\ ends_in chars (rstrip chars s) = false.
Proof.
  induction s as [|c s (post & Hs & Hpost & Hend)]; simpl.
  - exists EmptyString. repeat split.
  - destruct (rstrip chars s) as [|d r] eqn:Hr.
    + destruct (mem c chars) eqn:Hc.
      * exists (String c post). simpl in *. rewrite Hc, Hpost.
        repeat split. now f_equal.
      * exists post. simpl in *. repeat split; [now f_equal | exact Hpost | exact Hc].
    + exists post. simpl in *. repeat split; [now f_equal | exact Hpost | exact Hend].
Qed.

Lemma rstrip_keeps_start (chars s : string) :
  starts_in chars s = false -> starts_in chars (rstrip chars s) = false.
Proof.
  destruct s as [|c s]; simpl; [reflexivity|]. intros Hc.
  destruct (rstrip chars s); [rewrite Hc|]; simpl; auto.
Qed.

(** [strip] removes a run of listed characters at both ends, and what it
    leaves neither begins nor ends with a listed character. *)
Lemma strip_decompose (chars s : string) :
  exists pre post, s = pre ++ strip chars s ++ post
                   /\ all_in chars pre = true /\ all_in chars post = true
                   /\ starts_in chars (strip chars s) = false
                   /\ ends_in chars (strip chars s) = false.
Proof.
  destruct (lstrip_decompose chars s) as (pre & Hs & Hpre & Hst).
  destruct (rstrip_decompose chars (lstrip chars s)) as (post & Hl & Hpost & Hend).
  exists pre, post. unfold strip. rewrite <- Hl, <- Hs.
  repeat split; auto using rstrip_keeps_start.
Qed.

(** Replacing a one-character pattern is a character-wise substitution. *)
Lemma replace_char (a : ascii) (new s : string) :
  replace (char a) new s = subst_char a new s.
Proof.
  unfold replace, char. induction s as [|c s IH]; simpl; [reflexivity|].
  destruct (Ascii.eqb a c); simpl; now rewrite IH.
Qed.

Lemma subst_char_cons (a : ascii) (new : string) (c : ascii) (s : string) :
  subst_char a new (String c s) =
    if Ascii.eqb a c then new ++ subst_char a new s else String c (subst_char a new s).
Proof. reflexivity. Qed.

Lemma startswith_drop (pat s : string) :
  startswith s pat = true -> s = pat ++ drop_chars (String.length pat) s.
Proof.
  revert s. induction pat as [|a pat IH]; intros s H; simpl in *.
  - now destruct s.
  - destruct s as [|b s]; [discriminate|].
    apply andb_prop in H as [E H]. apply Ascii.eqb_eq in E as ->.
    simpl. f_equal. now apply IH.
Qed.

Lemma startswith_length (pat s : string) :
  startswith s pat = true -> (String.length pat <= String.length s)%nat.
Proof.
  revert s. induction pat as [|a pat IH]; intros s H; simpl in *; [lia|].
  destruct s as [|b s]; [discriminate|].
  apply andb_prop in H as [_ H]. apply IH in H. simpl. lia.
Qed.

Lemma split_go_nonempty (sep s : string) (skip : nat) (cur : string) :
  split_go sep s skip cur <> [].
Proof.
  revert skip cur. induction s as [|c s IH]; intros skip cur; simpl; [discriminate|].
  destruct skip; [|apply IH]. destruct (startswith _ _); [discriminate | apply IH].
Qed.

Lemma join_cons (sep x : string) (l : list string) :
  l <> [] -> join sep (x :: l) = x ++ sep ++ join sep l.
Proof. destruct l; [contradiction | reflexivity]. Qed.

Lemma join_split_go (sep s : string) :
  sep <> EmptyString ->
  forall skip cur, (skip <= String.length s)%nat ->
    join sep (split_go sep s skip cur) = cur ++ drop_chars skip s.
Proof.
  intros Hsep. induction s as [|c s IH]; intros skip cur Hk; simpl in *.
  - destruct skip; now rewrite append_empty_r.
  - destruct skip as [|k].
    + destruct (startswith (String c s) sep) eqn:E.
      * rewrite join_cons by apply split_go_nonempty.
        pose proof (startswith_length _ _ E) as L. simpl in L.
        rewrite IH by lia. simpl.
        pose proof (startswith_drop _ _ E) as D.
        destruct sep as [|a sep]; [contradiction|]. simpl in *.
        rewrite Nat.sub_0_r. now rewrite <- D.
      * rewrite IH by lia. simpl. rewrite append_assoc. reflexivity.
    + apply IH. lia.
Qed.

(** Splitting is undone by joining: the pieces, put back together with the
    separator between them, give the text that was split. *)
Lemma join_split (sep s : string) (parts : list string) :
  split sep s = Return parts -> join sep parts = s.
Proof.
  unfold split. destruct sep as [|a sep]; [discriminate|]. intros [= <-].
  rewrite join_split_go; [reflexivity | discriminate | lia].
Qed.

(** ** The text adapter *)

Lemma effective_separator_csv (name seperator : string) :
  endswith name ".csv" = true -> effective_separator name seperator = ",".
Proof. intros H. unfold effective_separator. now rewrite H. Qed.

(** On a path, [write] first tests [data] for [__iter__], then truncates the
    file, takes [data[0]] and, the guard of line 89 being a type object and
    so true, hands [data] itself to [outfile.write]. *)
Lemma write_unfold (v : pyversion) (fs : gmap string string) (name : string)
    (data : payload) (seperator : string) :
  write v fs (__init__ (OStr name)) data seperator =
    if has_iter v data
    then match getitem0 data with
         | Return _ => outfile_write (<[name := EmptyString]> fs) name data
         | Raise e => (<[name := EmptyString]> fs, Raise e)
         end
    else (fs, Raise AssertionError).
Proof.
  unfold write. destruct (has_iter v data); simpl; [|reflexivity].
  destruct (getitem0 data); reflexivity.
Qed.

(** Whatever the rows, writing a table ends in an exception and leaves the
    file empty. *)
Lemma write_table (v : pyversion) (fs : gmap string string) (name : string)
    (k : seqkind) (rows : list entry) (seperator : string) :
  write v fs (__init__ (OStr name)) (DTable k rows) seperator =
    (<[name := EmptyString]> fs,
     Raise (match rows with [] => IndexError | _ :: _ => TypeError end)).
Proof. rewrite write_unfold. destruct rows; reflexivity. Qed.

Lemma read_unfold (v : pyversion) (fs : gmap string string) (name seperator : string) :
  TextInterface.read v fs (__init__ (OStr name)) seperator =
    match fs !! name with
    | Some content =>
        traverse (row_of_line (effective_separator name seperator)) (file_lines v content)
    | None => Raise IOError
    end.
Proof. reflexivity. Qed.

Lemma read_empty_file (v : pyversion) (fs : gmap string string) (name seperator : string) :
  fs !! name = Some EmptyString ->
  TextInterface.read v fs (__init__ (OStr name)) seperator = Return [].
Proof. intros H. rewrite read_unfold, H. destruct v; reflexivity. Qed.

(** On Python 3 a non-empty [str] is the one payload [write] accepts, and it
    is written as it is. *)
Example write_text_py3 :
  write Py3 ∅ (__init__ (OStr "out.csv")) (DScalar (SStr "a,1")) " "
  = (<["out.csv" := "a,1"]> (<["out.csv" := EmptyString]> ∅), Return tt).
Proof. reflexivity. Qed.

Example read_csv_file :
  TextInterface.read Py2 {["out.csv" := "a,1" ++ char LF ++ "b,2"]}
    (__init__ (OStr "out.csv")) " "
  = Return [["a"; "1"]; ["b"; "2"]].
Proof. rewrite read_unfold, lookup_singleton_eq. reflexivity. Qed.

Example read_missing_file :
  TextInterface.read Py2 ∅ (__init__ (OStr "out.csv")) " " = Raise IOError.
Proof. rewrite read_unfold, lookup_empty. reflexivity. Qed.

(** C1 (the code departs from the claim).  Writing a sequence of rows and
    reading the file back does not return the rows: for every table, file
    and separator the write raises ([IndexError] for no row, [TypeError]
    otherwise) after the file has been truncated, so the file is empty and
    reading it back yields no row at all.  For the rows
    [("a","1"),("b","2")] and [out.csv] the text [a,1\nb,2], which the
    unreachable branch of line 92 would have produced, is never written. *)
Theorem write_then_read_loses_rows (v : pyversion) (fs : gmap string string)
    (name : string) (k : seqkind) (rows : list entry) (seperator : string) :
  is_raise (snd (write v fs (__init__ (OStr name)) (DTable k rows) seperator)) = true
  /\ fst (write v fs (__init__ (OStr name)) (DTable k rows) seperator) !! name
     = Some EmptyString
  /\ TextInterface.read v
       (fst (write v fs (__init__ (OStr name)) (DTable k rows) seperator))
       (__init__ (OStr name)) seperator = Return []
  /\ write v fs (__init__ (OStr "out.csv")) (DTable KList scenario_rows) seperator
     = (<["out.csv" := EmptyString]> fs, Raise TypeError)
  /\ render "," (DTable KList scenario_rows)
     = Return ("a,1" ++ char LF ++ "b,2").
Proof.
  rewrite !write_table. simpl.
  assert (H : <[name := EmptyString]> fs !! name = Some EmptyString)
    by apply lookup_insert_eq.
  split; [now destruct rows|].
  split; [exact H|].
  split; [now apply read_empty_file|].
  split; reflexivity.
Qed.

(** C2 (the code departs from the claim).  The branch of line 89 does not
    depend on the first element: for every non-empty [data] that passes the
    assertion, [write] hands [data] itself to [outfile.write].  A table
    whose first element is a row therefore never reaches the join of line
    92: the call raises [TypeError] and the file stays empty; so does a
    table whose first element is a string. *)
Theorem write_never_joins (v : pyversion) (fs : gmap string string) (name : string)
    (k : seqkind) (first : entry) (rest : list entry) (seperator : string) :
  write v fs (__init__ (OStr name)) (DTable k (first :: rest)) seperator
    = outfile_write (<[name := EmptyString]> fs) name (DTable k (first :: rest))
  /\ write v fs (__init__ (OStr name)) (DTable k (first :: rest)) seperator
    = (<[name := EmptyString]> fs, Raise TypeError)
  /\ truth (type_ (eq_str_type first)) = true.
Proof. rewrite write_unfold. repeat split. Qed.

(** [write] never consults its separator: the join of line 92, the one
    place that names it, is not reached. *)
Lemma write_ignores_separator (v : pyversion) (fs : gmap string string)
    (self : TextInterface.t) (data : payload) (seperator seperator' : string) :
  write v fs self data seperator = write v fs self data seperator'.
Proof.
  unfold write. destruct (has_iter v data); [|reflexivity].
  destruct (file self); reflexivity.
Qed.

(** C6 (the code departs from the claim).  For a file whose name ends in
    [.csv], [read] does use the comma whatever separator the caller
    supplies: every line is stripped and split on the comma.  [write] does
    not: lines 85-86 set the separator to the comma, but the call gives the
    same result for every separator and for every file name, because the
    join that would use it is never reached.  Writing the rows
    [("a","1"),("b","2")] to [out.csv] with the separator [;] raises
    [TypeError] and leaves the file empty; the comma-joined text that line
    92 computes from the separator in effect is never written. *)
Theorem csv_comma_is_read_but_never_written (v : pyversion)
    (fs : gmap string string) (name : string) (data : payload)
    (seperator seperator' : string) :
  endswith name ".csv" = true ->
  (effective_separator name seperator = ","
   /\ TextInterface.read v fs (__init__ (OStr name)) seperator
      = TextInterface.read v fs (__init__ (OStr name)) ","
   /\ (forall content, fs !! name = Some content ->
       TextInterface.read v fs (__init__ (OStr name)) seperator
       = traverse (fun line => split "," (strip line_end_chars line))
           (file_lines v content)))
  /\ (write v fs (__init__ (OStr name)) data seperator
      = write v fs (__init__ (OStr name)) data seperator'
      /\ write v fs (__init__ (OStr "out.csv")) (DTable KList scenario_rows) ";"
         = (<["out.csv" := EmptyString]> fs, Raise TypeError)
      /\ render (effective_separator "out.csv" ";") (DTable KList scenario_rows)
         = Return ("a,1" ++ char LF ++ "b,2")).
Proof.
  intros H. pose proof (effective_separator_csv name seperator H) as E.
  pose proof (effective_separator_csv name "," H) as E'.
  split.
  - split; [exact E|]. rewrite !read_unfold, E, E'. split; [reflexivity|].
    intros content ->. reflexivity.
  - split; [apply write_ignores_separator|]. split; reflexivity.
Qed.

Lemma csv_comma_is_read_but_never_written_witness :
  endswith "out.csv" ".csv" = true
  /\ ({["out.csv" := "a;1,b"]} : gmap string string) !! "out.csv" = Some "a;1,b"
  /\ TextInterface.read Py2 {["out.csv" := "a;1,b"]} (__init__ (OStr "out.csv")) ";"
     = traverse (fun line => split "," (strip line_end_chars line))
         (file_lines Py2 "a;1,b")
  /\ write Py2 {["out.csv" := "a;1,b"]} (__init__ (OStr "out.csv"))
       (DTable KList scenario_rows) ";"
     = write Py2 {["out.csv" := "a;1,b"]} (__init__ (OStr "out.csv"))
         (DTable KList scenario_rows) ",".
Proof.
  assert (L : ({["out.csv" := "a;1,b"]} : gmap string string) !! "out.csv"
              = Some "a;1,b") by reflexivity.
  split; [reflexivity|]. split; [exact L|]. split.
  - exact (proj2 (proj2 (proj1 (csv_comma_is_read_but_never_written Py2
                                  {["out.csv" := "a;1,b"]} "out.csv"
                                  (DTable KList scenario_rows) ";" ","
                                  eq_refl))) "a;1,b" L).
  - exact (proj1 (proj2 (csv_comma_is_read_but_never_written Py2
                           {["out.csv" := "a;1,b"]} "out.csv"
                           (DTable KList scenario_rows) ";" "," eq_refl))).
Defined.

(** C7, as stated, fails: a line that begins with a tab loses that tab.
    The file holds the single line TAB a SPACE b LF; [read] returns the row
    [("a","b")] where stripping at the end only gives [(TAB a, "b")]. *)
Lemma read_strips_line_start :
  TextInterface.read Py2 {["notes.txt" := String TAB ("a b" ++ char LF)]}
       (__init__ (OStr "notes.txt")) " "
  = Return [["a"; "b"]]
  /\ traverse (row_of_line_trailing_only " ")
       (file_lines Py2 (String TAB ("a b" ++ char LF)))
     = Return [[String TAB "a"; "b"]].
Proof.
  split; [|reflexivity].
  rewrite read_unfold, lookup_singleton_eq. reflexivity.
Qed.

(** C7, amended.  Every line read has the characters CR, LF and TAB stripped
    at both of its ends: the row is the split, on the separator in effect,
    of what remains of the line once the longest run of these characters is
    removed at its start and at its end. *)
Theorem read_strips_both_ends (v : pyversion) (fs : gmap string string)
    (name content seperator : string) :
  fs !! name = Some content ->
  TextInterface.read v fs (__init__ (OStr name)) seperator
  = traverse (fun line => split (effective_separator name seperator)
                            (strip line_end_chars line))
      (file_lines v content)
  /\ forall line, exists pre post,
       line = pre ++ strip line_end_chars line ++ post
       /\ all_in line_end_chars pre = true
       /\ all_in line_end_chars post = true
       /\ starts_in line_end_chars (strip line_end_chars line) = false
       /\ ends_in line_end_chars (strip line_end_chars line) = false.
Proof.
  intros H. split.
  - rewrite read_unfold, H. reflexivity.
  - intros line. apply strip_decompose.
Qed.

Lemma read_strips_both_ends_witness :
  ({["notes.txt" := String TAB ("a b" ++ char LF)]} : gmap string string)
    !! "notes.txt" = Some (String TAB ("a b" ++ char LF))
  /\ TextInterface.read Py2 {["notes.txt" := String TAB ("a b" ++ char LF)]}
       (__init__ (OStr "notes.txt")) " "
     = traverse (fun line => split (effective_separator "notes.txt" " ")
                               (strip line_end_chars line))
         (file_lines Py2 (String TAB ("a b" ++ char LF))).
Proof.
  split; [reflexivity|].
  exact (proj1 (read_strips_both_ends Py2
                  {["notes.txt" := String TAB ("a b" ++ char LF)]}
                  "notes.txt" (String TAB ("a b" ++ char LF)) " " eq_refl)).
Defined.

(** C8, as stated, fails at a text, whichever way the word sequence is
    read.  The text [ab] is a sequence for Python, yet on Python 2 it has no
    [__iter__] and the call fails at the assertion; it is a scalar, not a
    sequence of rows, for the specification, yet on Python 3 it has
    [__iter__], the assertion passes and the text is written. *)
Lemma text_payload_divides_the_generations :
  (sequence_with_text (DScalar (SStr "ab")) = true
   /\ write Py2 ∅ (__init__ (OStr "out.txt")) (DScalar (SStr "ab")) " "
      = (∅, Raise AssertionError))
  /\ (sequence_of_rows (DScalar (SStr "ab")) = false
      /\ snd (write Py3 ∅ (__init__ (OStr "out.txt")) (DScalar (SStr "ab")) " ")
         = Return tt).
Proof. repeat split. Qed.

(** C8, amended.  The assertion of line 83 comes before anything else and
    tests for [__iter__].  [None], a boolean and an integer, and on Python 2
    a text as well, make the call fail with [AssertionError], whatever the
    adapter is bound to and with the file system untouched.  A list or a
    tuple, and on Python 3 a text as well, pass the assertion: the call
    goes on to the lines that follow, and its outcome is never
    [AssertionError]. *)
Theorem write_asserts_iter_first (v : pyversion) (fs : gmap string string)
    (self : TextInterface.t) (seperator : string) :
  (write v fs self (DScalar SNone) seperator = (fs, Raise AssertionError)
   /\ (forall b, write v fs self (DScalar (SBool b)) seperator
                 = (fs, Raise AssertionError))
   /\ (forall z, write v fs self (DScalar (SInt z)) seperator
                 = (fs, Raise AssertionError))
   /\ (forall s, write Py2 fs self (DScalar (SStr s)) seperator
                 = (fs, Raise AssertionError)))
  /\ ((forall k rows,
         snd (write v fs self (DTable k rows) seperator) <> Raise AssertionError)
      /\ (forall s,
            snd (write Py3 fs self (DScalar (SStr s)) seperator)
            <> Raise AssertionError)).
Proof.
  split; [destruct v; repeat split|]. split.
  - intros k rows. unfold write. cbn [has_iter negb].
    destruct (file self); try discriminate.
    destruct rows; discriminate.
  - intros s. unfold write. cbn [has_iter negb].
    destruct (file self); try discriminate.
    destruct s; discriminate.
Qed.

(** ** The relational adapter *)

(** The chained replacements double every double quote and every backslash
    of the text, and change nothing else. *)
Lemma escape_charwise (s : string) : escape s = escaped s.
Proof.
  unfold escape. rewrite !replace_char.
  induction s as [|c s IH]; [reflexivity|].
  cbn [escaped]. unfold escape_char. rewrite subst_char_cons.
  destruct (Ascii.eqb DQUOTE c) eqn:Q.
  - change (String DQUOTE (char DQUOTE) ++ ?x) with (String DQUOTE (String DQUOTE x)).
    rewrite !subst_char_cons.
    change (Ascii.eqb BACKSLASH DQUOTE) with false. cbv iota.
    now rewrite IH.
  - rewrite subst_char_cons.
    destruct (Ascii.eqb BACKSLASH c); now rewrite IH.
Qed.

Example build_insert_mixed_row :
  _build_insert [SStr "a"; SInt 12; SNone; SBool true; SBool false; SStr ""]
  = quoted "a" ++ ",12," ++ quoted "None" ++ ",True," ++ quoted "False" ++ ","
    ++ quoted "".
Proof. reflexivity. Qed.

Example insert_statement_text :
  insert_statement "t" [SInt 1; SInt (-2)] = "INSERT INTO t VALUES ( 1,-2 )".
Proof. reflexivity. Qed.

(** C5, as stated, fails at the numeric field zero: being false in a
    condition, it takes the branch of the empty fields and is emitted
    between double quotes, where its default representation is [0]. *)
Lemma zero_field_is_quoted :
  literal (SInt 0) = String DQUOTE ("0" ++ char DQUOTE)
  /\ str (SInt 0) = "0"
  /\ _build_insert [SInt 0; SInt 7] = String DQUOTE ("0" ++ char DQUOTE) ++ ",7".
Proof. repeat split. Qed.

(** C5, amended.  The statement builder joins the literals of the fields
    with commas.  Every string field and every empty field ([None], [False],
    zero, the empty string) is emitted between double quotes with each
    embedded double quote doubled and each backslash doubled; every numeric
    field other than zero is emitted as its decimal numeral, unquoted. *)
Theorem build_insert_literals (row : list scalar) :
  _build_insert row = join "," (map literal row)
  /\ (forall s, literal (SStr s) = quoted s)
  /\ (forall item, falsy item = true -> literal item = quoted (str item))
  /\ (forall z, z <> 0%Z -> literal (SInt z) = of_int z).
Proof.
  split; [reflexivity|]. split; [|split].
  - intros s. unfold literal, quoted. simpl. now rewrite escape_charwise.
  - intros item H. unfold literal, quoted. rewrite H, orb_true_r.
    now rewrite escape_charwise.
  - intros z H. unfold literal. simpl.
    destruct (Z.eqb_spec z 0); [contradiction | reflexivity].
Qed.

Lemma build_insert_literals_witness :
  falsy SNone = true
  /\ literal SNone = quoted "None"
  /\ literal (SInt 12) = "12"
  /\ literal (SStr ("a" ++ char DQUOTE ++ "\")) =
       String DQUOTE ("a" ++ String DQUOTE (String DQUOTE ("\\" ++ char DQUOTE))).
Proof.
  split; [reflexivity|]. split; [|split].
  - exact (proj1 (proj2 (proj2 (build_insert_literals []))) SNone eq_refl).
  - refine (proj2 (proj2 (proj2 (build_insert_literals []))) 12%Z _). discriminate.
  - exact (proj1 (proj2 (build_insert_literals [])) ("a" ++ char DQUOTE ++ "\")).
Defined.

Section ServerFacts.

Variable accepts : connection -> string -> bool.
Variable answer : connection -> string -> list (list scalar).

Lemma cursor_execute_fields (c c' : connection) (q : string) :
  cursor_execute accepts answer c q = Some c' ->
  pending c' = (pending c ++ [q])%list
  /\ committed c' = committed c /\ commits c' = commits c.
Proof.
  unfold cursor_execute.
  destruct (accepts c q); [|discriminate]. intros [= <-]. repeat split.
Qed.

Lemma insert_all_accepted (c : connection) (table : string) (data : list (list scalar)) :
  first_rejected accepts answer c table data = None ->
  snd (insert accepts answer c table data) = Return tt
  /\ pending (fst (insert accepts answer c table data)) = []
  /\ committed (fst (insert accepts answer c table data))
     = (committed c ++ pending c ++ map (insert_statement table) data)%list
  /\ commits (fst (insert accepts answer c table data)) = S (commits c).
Proof.
  revert c. induction data as [|row rest IH]; intros c H; simpl in *.
  - rewrite app_nil_r. repeat split.
  - destruct (cursor_execute accepts answer c (insert_statement table row))
      as [c'|] eqn:E; [|discriminate].
    destruct (first_rejected accepts answer c' table rest) eqn:F; [discriminate|].
    destruct (cursor_execute_fields _ _ _ E) as (P & Cd & Cs).
    destruct (IH c' F) as (R & Pn & Cm & Cn).
    rewrite R, Pn, Cm, Cn, P, Cd, Cs, <- app_assoc. repeat split.
Qed.

Lemma insert_rejected (c : connection) (table : string) (data : list (list scalar))
    (k : nat) :
  first_rejected accepts answer c table data = Some k ->
  exists row, nth_error data k = Some row
    /\ snd (insert accepts answer c table data)
       = Raise (DatabaseError (UnableToAddRow row table))
    /\ pending (fst (insert accepts answer c table data))
       = (pending c ++ map (insert_statement table) (firstn k data))%list
    /\ committed (fst (insert accepts answer c table data)) = committed c
    /\ commits (fst (insert accepts answer c table data)) = commits c.
Proof.
  revert c k. induction data as [|row rest IH]; intros c k H; simpl in *.
  - discriminate.
  - destruct (cursor_execute accepts answer c (insert_statement table row))
      as [c'|] eqn:E.
    + destruct (first_rejected accepts answer c' table rest) as [j|] eqn:F;
        [|discriminate].
      injection H as <-.
      destruct (cursor_execute_fields _ _ _ E) as (P & Cd & Cs).
      destruct (IH c' j F) as (r & N & R & Pn & Cm & Cn).
      exists r. simpl. rewrite R, Pn, Cm, Cn, P, Cd, Cs, <- app_assoc.
      repeat split. exact N.
    + injection H as <-. exists row. simpl. rewrite app_nil_r. repeat split.
Qed.

(** C4, amended.  When the server executes the statement of every row,
    [insert] issues one INSERT statement per row, in order, and commits
    once: afterwards all of them are committed.  When the server rejects the
    statement of a row after executing those of the [k] rows before it, the
    call fails with the [DatabaseError] that carries that row and the table;
    the [k] earlier statements have been executed and stay in the open
    transaction, and nothing at all is committed: the call has performed no
    commit (and no rollback). *)
Theorem insert_commits_all_or_nothing (c : connection) (table : string)
    (data : list (list scalar)) :
  (first_rejected accepts answer c table data = None ->
   snd (insert accepts answer c table data) = Return tt
   /\ pending (fst (insert accepts answer c table data)) = []
   /\ committed (fst (insert accepts answer c table data))
      = (committed c ++ pending c ++ map (insert_statement table) data)%list
   /\ commits (fst (insert accepts answer c table data)) = S (commits c))
  /\ (forall k, first_rejected accepts answer c table data = Some k ->
      exists row, nth_error data k = Some row
        /\ snd (insert accepts answer c table data)
           = Raise (DatabaseError (UnableToAddRow row table))
        /\ pending (fst (insert accepts answer c table data))
           = (pending c ++ map (insert_statement table) (firstn k data))%list
        /\ committed (fst (insert accepts answer c table data)) = committed c
        /\ commits (fst (insert accepts answer c table data)) = commits c).
Proof.
  split; [apply insert_all_accepted | intros k; apply insert_rejected].
Qed.

(** C10.  [read] executes the statement and hands over the rows the server
    answers with, and it never commits: the number of commits and the
    committed statements are as before the call, and the only change to the
    transaction is the executed statement itself.  A commit is issued by a
    successful [execute] and by an [insert] that ends without exception, and
    by nothing else: a failed [execute] and a failed [insert] issue none. *)
Theorem read_never_commits (c : connection) (statement table : string)
    (data : list (list scalar)) :
  commits (fst (read accepts answer c statement)) = commits c
  /\ committed (fst (read accepts answer c statement)) = committed c
  /\ pending (fst (read accepts answer c statement))
     = (if accepts c statement then (pending c ++ [statement])%list else pending c)
  /\ snd (read accepts answer c statement)
     = (if accepts c statement then Return (answer c statement)
        else Raise (DatabaseError (UnableToExecute statement)))
  /\ commits (fst (execute accepts answer c statement))
     = (if accepts c statement then S (commits c) else commits c)
  /\ commits (fst (insert accepts answer c table data))
     = (if is_raise (snd (insert accepts answer c table data))
        then commits c else S (commits c)).
Proof.
  assert (I : commits (fst (insert accepts answer c table data))
              = (if is_raise (snd (insert accepts answer c table data))
                 then commits c else S (commits c))).
  { destruct (first_rejected accepts answer c table data) as [k|] eqn:F.
    - destruct (insert_rejected _ _ _ _ F) as (r & _ & R & _ & _ & Cn).
      now rewrite R, Cn.
    - destruct (insert_all_accepted _ _ _ F) as (R & _ & _ & Cn).
      now rewrite R, Cn. }
  unfold read, execute, cursor_execute.
  destruct (accepts c statement); simpl; repeat (split; [reflexivity|]); exact I.
Qed.

End ServerFacts.

(** C4, as stated, fails: with three rows of which the second is rejected,
    the call raises the [DatabaseError] for that row, yet not one row is
    committed (the claim says one): no commit has been performed, and the
    statement of the first row sits uncommitted in the open transaction. *)
Lemma insert_failure_commits_nothing :
  snd (insert picky_server no_answer fresh_connection "t"
         [[SInt 1]; [SInt 2]; [SInt 3]])
  = Raise (DatabaseError (UnableToAddRow [SInt 2] "t"))
  /\ committed (fst (insert picky_server no_answer fresh_connection "t"
                       [[SInt 1]; [SInt 2]; [SInt 3]])) = []
  /\ commits (fst (insert picky_server no_answer fresh_connection "t"
                     [[SInt 1]; [SInt 2]; [SInt 3]])) = 0
  /\ pending (fst (insert picky_server no_answer fresh_connection "t"
                     [[SInt 1]; [SInt 2]; [SInt 3]]))
     = ["INSERT INTO t VALUES ( 1 )"].
Proof. repeat split. Qed.

Lemma insert_commits_all_or_nothing_witness :
  first_rejected picky_server no_answer fresh_connection "t" [[SInt 1]; [SInt 3]] = None
  /\ committed (fst (insert picky_server no_answer fresh_connection "t"
                       [[SInt 1]; [SInt 3]]))
     = ["INSERT INTO t VALUES ( 1 )"; "INSERT INTO t VALUES ( 3 )"]
  /\ first_rejected picky_server no_answer fresh_connection "t"
       [[SInt 1]; [SInt 2]; [SInt 3]] = Some 1
  /\ exists row, nth_error [[SInt 1]; [SInt 2]; [SInt 3]] 1 = Some row
       /\ snd (insert picky_server no_answer fresh_connection "t"
                 [[SInt 1]; [SInt 2]; [SInt 3]])
          = Raise (DatabaseError (UnableToAddRow row "t"))
       /\ pending (fst (insert picky_server no_answer fresh_connection "t"
                          [[SInt 1]; [SInt 2]; [SInt 3]]))
          = (pending fresh_connection
             ++ map (insert_statement "t") (firstn 1 [[SInt 1]; [SInt 2]; [SInt 3]]))%list
       /\ committed (fst (insert picky_server no_answer fresh_connection "t"
                            [[SInt 1]; [SInt 2]; [SInt 3]]))
          = committed fresh_connection
       /\ commits (fst (insert picky_server no_answer fresh_connection "t"
                          [[SInt 1]; [SInt 2]; [SInt 3]]))
          = commits fresh_connection.
Proof.
  split; [reflexivity|]. split; [|split; [reflexivity|]].
  - exact (proj1 (proj2 (proj2 (proj1
             (insert_commits_all_or_nothing picky_server no_answer
                fresh_connection "t" [[SInt 1]; [SInt 3]]) eq_refl)))).
  - exact (proj2 (insert_commits_all_or_nothing picky_server no_answer
                    fresh_connection "t" [[SInt 1]; [SInt 2]; [SInt 3]]) 1 eq_refl).
Defined.

Section DatifyFacts.

Variable int : string -> result Z.
Variable datetime_date : Z -> Z -> Z -> result date.

(** C9 (the code departs from the claim).  The first test of the helper
    names [Qc], which the module never imports: for every interpreter
    generation and every input, a date-like string as well as anything
    else, the call raises [NameError] and returns neither a date nor
    [None]. *)
Theorem datify_always_raises (v : pyversion) (arg : datify_arg) :
  _datify int datetime_date v module_globals arg = Raise (NameError "Qc")
  /\ _datify int datetime_date v module_globals (AScalar (SStr "2014-01-02"))
     = Raise (NameError "Qc")
  /\ _datify int datetime_date v module_globals (AScalar (SInt 5))
     = Raise (NameError "Qc").
Proof. destruct v; repeat split. Qed.

(** With the imports in place the body does what the helper is meant to do
    on a string with two dashes or two slashes, and returns [None] on what
    is not a string. *)
Lemma datify_with_imports_dashes (v : pyversion) :
  _datify int datetime_date v globals_with_imports (AScalar (SStr "2014-01-02"))
  = (y ← int "2014"; m ← int "01"; d ← int "02";
     r ← datetime_date y m d; Return (Some r)).
Proof. reflexivity. Qed.

Lemma datify_with_imports_slashes (v : pyversion) :
  _datify int datetime_date v globals_with_imports (AScalar (SStr "2014/1/2"))
  = (y ← int "2014"; m ← int "1"; d ← int "2";
     r ← datetime_date y m d; Return (Some r)).
Proof. reflexivity. Qed.

Lemma datify_with_imports_not_text (v : pyversion) (arg : datify_arg) :
  (forall s, arg <> AScalar (SStr s)) ->
  _datify int datetime_date v globals_with_imports arg = Return None.
Proof.
  intros H. destruct arg as [[| | |s]|d]; try reflexivity.
  now destruct (H s).
Qed.

(** Even then a string that is not date-like is not answered with [None]:
    its first three characters go to [int]. *)
Lemma datify_with_imports_plain_text (v : pyversion) :
  _datify int datetime_date v globals_with_imports (AScalar (SStr "hello"))
  = (y ← int "h"; m ← int "e"; d ← int "l";
     r ← datetime_date y m d; Return (Some r)).
Proof. reflexivity. Qed.

(** A string whose split on the slash leaves two pieces equal to the dash
    meets, in the second round of the loop, a list, which has no [split]. *)
Example datify_with_imports_split_twice (v : pyversion) :
  _datify int datetime_date v globals_with_imports (AScalar (SStr "-/-/"))
  = Raise AttributeError.
Proof. reflexivity. Qed.

End DatifyFacts.

(** ** The factory *)

(** The names the factory passes on are looked up as variables, and none of
    them is one: the keyword arguments stay in [kwargs]. *)
Lemma factory_text_branch (v : pyversion) (db_type : string)
    (kwargs : list (string * object)) :
  bind_factory_arguments kwargs = Return tt ->
  existsb (String.eqb (lower db_type)) GOOGLE_SPREADSHEET_TYPES = false ->
  existsb (String.eqb (lower db_type)) TEXT_TABLE_TYPES = true ->
  DatabaseFactory v db_type kwargs =
    match v with
    | Py2 => Return (Some (Text (__init__ (OBuiltin "file"))))
    | Py3 => Raise (NameError "file")
    end.
Proof.
  intros B G T. unfold DatabaseFactory. rewrite B. cbn [mbind result_bind].
  rewrite G, T. destruct v; reflexivity.
Qed.

Example factory_mysql (v : pyversion) :
  DatabaseFactory v "MySQL" [("db", OStr "pores")] = Raise (NameError "db").
Proof. destruct v; reflexivity. Qed.

Example factory_google (v : pyversion) :
  DatabaseFactory v "google" [("title", OStr "pores")] = Raise (NameError "title").
Proof. destruct v; reflexivity. Qed.

Example factory_unknown_tag (v : pyversion) :
  DatabaseFactory v "mongo" [] = Return None.
Proof. reflexivity. Qed.

(** C3 (the code departs from the claim).  Called with the tag [csv], in
    any letter case, and [file="data.csv"], the factory does not return an
    adapter bound to [data.csv]: the body reads the variable [file], not the
    keyword argument.  On Python 3 the call raises [NameError]; on Python 2
    the name is the builtin type [file] and the adapter is bound to that
    type object, so that its [read] raises [TypeError] when it opens the
    file and its [write] raises too, whatever the separator: no file is
    read or written, with a comma or otherwise. *)
Theorem factory_csv_ignores_file (v : pyversion) (fs : gmap string string)
    (data : payload) (seperator : string) :
  DatabaseFactory v "csv" [("file", OStr "data.csv")]
  = match v with
    | Py2 => Return (Some (Text (__init__ (OBuiltin "file"))))
    | Py3 => Raise (NameError "file")
    end
  /\ DatabaseFactory v "CSV" [("file", OStr "data.csv")]
     = DatabaseFactory v "csv" [("file", OStr "data.csv")]
  /\ TextInterface.read v fs (__init__ (OBuiltin "file")) seperator = Raise TypeError
  /\ fst (write v fs (__init__ (OBuiltin "file")) data seperator) = fs
  /\ is_raise (snd (write v fs (__init__ (OBuiltin "file")) data seperator)) = true.
Proof.
  split; [now apply factory_text_branch|].
  split; [now rewrite !factory_text_branch|].
  split; [reflexivity|].
  unfold write. destruct (has_iter v data); split; reflexivity.
Qed.

(** * Further properties *)

(** ** The text adapter: separators *)

(** A name has one suffix of a given length. *)
Lemma endswith_same_length (s a b : string) :
  String.length a = String.length b ->
  endswith s a = true -> endswith s b = true -> a = b.
Proof.
  unfold endswith. intros L Ha Hb. rewrite <- L in Hb.
  apply andb_prop in Ha as [_ Ha]. apply andb_prop in Hb as [_ Hb].
  apply String.eqb_eq in Ha, Hb. congruence.
Qed.

Lemma effective_separator_tsv (name seperator : string) :
  endswith name ".tsv" = true -> effective_separator name seperator = char TAB.
Proof.
  intros H. unfold effective_separator.
  destruct (endswith name ".csv") eqn:E; [|now rewrite H].
  discriminate (endswith_same_length name ".csv" ".tsv" eq_refl E H).
Qed.

(** X1.  For a file whose name ends in [.tsv] the separator in effect in
    [read] is the tab, whatever separator the caller supplies: the name
    cannot also end in [.csv], [read] strips every line and splits it on
    the tab, and it behaves as when called with the tab. *)
Theorem tsv_suffix_forces_tab (v : pyversion) (fs : gmap string string)
    (name : string) (seperator : string) :
  endswith name ".tsv" = true ->
  endswith name ".csv" = false
  /\ effective_separator name seperator = char TAB
  /\ TextInterface.read v fs (__init__ (OStr name)) seperator
     = TextInterface.read v fs (__init__ (OStr name)) (char TAB)
  /\ (forall content, fs !! name = Some content ->
      TextInterface.read v fs (__init__ (OStr name)) seperator
      = traverse (fun line => split (char TAB) (strip line_end_chars line))
          (file_lines v content)).
Proof.
  intros H. pose proof (effective_separator_tsv name seperator H) as E.
  pose proof (effective_separator_tsv name (char TAB) H) as E'.
  split.
  - destruct (endswith name ".csv") eqn:C; [|reflexivity].
    discriminate (endswith_same_length name ".csv" ".tsv" eq_refl C H).
  - split; [exact E|]. rewrite !read_unfold, E, E'. split; [reflexivity|].
    intros content ->. reflexivity.
Qed.

Lemma tsv_suffix_forces_tab_witness :
  endswith "pores.tsv" ".tsv" = true
  /\ TextInterface.read Py3 {["pores.tsv" := "a b" ++ char TAB ++ "c"]}
       (__init__ (OStr "pores.tsv")) " "
     = TextInterface.read Py3 {["pores.tsv" := "a b" ++ char TAB ++ "c"]}
         (__init__ (OStr "pores.tsv")) (char TAB).
Proof.
  split; [reflexivity|].
  exact (proj1 (proj2 (proj2 (tsv_suffix_forces_tab Py3
                                {["pores.tsv" := "a b" ++ char TAB ++ "c"]}
                                "pores.tsv" " " eq_refl)))).
Defined.

(** ** The text adapter: what [read] returns *)

Lemma traverse_map {A B : Type} (f : A -> result B) (g : A -> B) (l : list A) :
  (forall a, f a = Return (g a)) -> traverse f l = Return (map g l).
Proof.
  intros H. induction l as [|a l IH]; simpl; [reflexivity|].
  rewrite H. simpl. rewrite IH. reflexivity.
Qed.

Lemma split_nonempty_separator (sep s : string) :
  sep <> EmptyString -> split sep s = Return (split_go sep s 0 EmptyString).
Proof. destruct sep; [contradiction | reflexivity]. Qed.

Lemma read_rows (v : pyversion) (fs : gmap string string)
    (name content seperator : string) :
  effective_separator name seperator <> EmptyString ->
  fs !! name = Some content ->
  TextInterface.read v fs (__init__ (OStr name)) seperator
  = Return (map (fun line => split_go (effective_separator name seperator)
                               (strip line_end_chars line) 0 EmptyString)
              (file_lines v content)).
Proof.
  intros S H. rewrite read_unfold, H. apply traverse_map.
  intros line. unfold row_of_line. apply split_nonempty_separator. exact S.
Qed.



(** X5.  With an empty separator in effect (an empty separator argument
    and a name that ends neither in [.csv] nor in [.tsv]), [read] raises
    [ValueError] as soon as the file has a line, and returns no row when the
    file is empty. *)
Theorem read_empty_separator (v : pyversion) (fs : gmap string string)
    (name content seperator : string) :
  effective_separator name seperator = EmptyString ->
  fs !! name = Some content ->
  TextInterface.read v fs (__init__ (OStr name)) seperator
  = match file_lines v content with
    | [] => Return []
    | _ :: _ => Raise ValueError
    end.
Proof.
  intros S H. rewrite read_unfold, H, S.
  destruct (file_lines v content); reflexivity.
Qed.

Lemma read_empty_separator_witness :
  effective_separator "notes.txt" EmptyString = EmptyString
  /\ ({["notes.txt" := "a b"]} : gmap string string) !! "notes.txt" = Some "a b"
  /\ TextInterface.read Py3 {["notes.txt" := "a b"]} (__init__ (OStr "notes.txt"))
       EmptyString
     = Raise ValueError.
Proof.
  split; [reflexivity|]. split; [reflexivity|].
  exact (read_empty_separator Py3 {["notes.txt" := "a b"]} "notes.txt" "a b"
           EmptyString eq_refl eq_refl).
Defined.

(** ** The text adapter: reading back what line 92 renders *)

Lemma free_of_app (chars a b : string) :
  free_of chars (a ++ b) = free_of chars a && free_of chars b.
Proof.
  induction a as [|x a IH]; simpl; [reflexivity|].
  now rewrite IH, andb_assoc.
Qed.

Lemma free_of_mono (small big s : string) :
  (forall x, mem x small = true -> mem x big = true) ->
  free_of big s = true -> free_of small s = true.
Proof.
  intros M. induction s as [|x s IH]; simpl; [reflexivity|].
  intros H. apply andb_prop in H as [Hx Hs]. rewrite (IH Hs), andb_true_r.
  destruct (mem x small) eqn:E; [|reflexivity].
  now rewrite (M x E) in Hx.
Qed.

Lemma free_of_join (chars sep : string) (parts : list string) :
  free_of chars sep = true ->
  forallb (free_of chars) parts = true ->
  free_of chars (join sep parts) = true.
Proof.
  intros S. induction parts as [|p parts IH]; simpl; [reflexivity|].
  intros H. apply andb_prop in H as [Hp Hs].
  destruct parts as [|q parts]; [exact Hp|].
  rewrite !free_of_app, Hp, S. simpl. exact (IH Hs).
Qed.

Lemma forallb_mono {A : Type} (p q : A -> bool) (l : list A) :
  (forall a, p a = true -> q a = true) ->
  forallb p l = true -> forallb q l = true.
Proof.
  intros M. induction l as [|a l IH]; simpl; [reflexivity|].
  intros H. apply andb_prop in H as [Ha Hl]. now rewrite (M a Ha), (IH Hl).
Qed.

Lemma forallb_over_map {A B : Type} (p : B -> bool) (f : A -> B) (l : list A) :
  forallb p (map f l) = forallb (fun a => p (f a)) l.
Proof. induction l as [|a l IH]; simpl; [reflexivity | now rewrite IH]. Qed.

Lemma free_of_char (c x : ascii) (s : string) :
  free_of (char c) (String x s) = true -> Ascii.eqb c x = false.
Proof.
  simpl. rewrite orb_false_r. intros H. apply andb_prop in H as [H _].
  rewrite Ascii.eqb_sym. now destruct (Ascii.eqb x c).
Qed.

Lemma free_of_tail (chars : string) (x : ascii) (s : string) :
  free_of chars (String x s) = true -> free_of chars s = true.
Proof. simpl. intros H. now apply andb_prop in H. Qed.

(** Splitting runs through a field that holds no separator, and cuts at the
    separator. *)
Lemma split_go_through (c : ascii) (f rest cur : string) :
  free_of (char c) f = true ->
  split_go (char c) (f ++ rest) 0 cur = split_go (char c) rest 0 (cur ++ f).
Proof.
  revert cur. induction f as [|x f IH]; intros cur H; simpl.
  - now rewrite append_empty_r.
  - rewrite (free_of_char _ _ _ H). simpl.
    rewrite IH by exact (free_of_tail _ _ _ H).
    now rewrite append_assoc.
Qed.

Lemma split_go_cut (c : ascii) (rest cur : string) :
  split_go (char c) (String c rest) 0 cur
  = cur :: split_go (char c) rest 0 EmptyString.
Proof. simpl. now rewrite Ascii.eqb_refl. Qed.

Lemma split_go_join (c : ascii) (f : string) (fields : list string) (cur : string) :
  forallb (free_of (char c)) (f :: fields) = true ->
  split_go (char c) (join (char c) (f :: fields)) 0 cur = (cur ++ f) :: fields.
Proof.
  revert f cur. induction fields as [|g fields IH]; intros f cur H;
    apply andb_prop in H as [Hf Hs].
  - change (join (char c) [f]) with f.
    rewrite <- (append_empty_r f) at 1. now rewrite split_go_through.
  - change (join (char c) (f :: g :: fields))
      with (f ++ String c (join (char c) (g :: fields))).
    rewrite split_go_through by exact Hf. rewrite split_go_cut.
    now rewrite (IH g EmptyString Hs).
Qed.

(** Stripping gives back a line that neither begins nor ends with a listed
    character, whatever listed characters follow it. *)
Lemma rstrip_all_in (chars s : string) :
  all_in chars s = true -> rstrip chars s = EmptyString.
Proof.
  induction s as [|x s IH]; simpl; [reflexivity|].
  intros H. apply andb_prop in H as [Hx Hs]. now rewrite (IH Hs), Hx.
Qed.

Lemma append_cons (x : ascii) (a b : string) : String x a ++ b = String x (a ++ b).
Proof. reflexivity. Qed.

Lemma lstrip_cons (chars : string) (x : ascii) (s : string) :
  lstrip chars (String x s) = if mem x chars then lstrip chars s else String x s.
Proof. reflexivity. Qed.

Lemma rstrip_cons (chars : string) (x : ascii) (s : string) :
  rstrip chars (String x s) =
    match rstrip chars s with
    | EmptyString => if mem x chars then EmptyString else char x
    | r => String x r
    end.
Proof. reflexivity. Qed.

Lemma rstrip_line (chars l post : string) :
  l <> EmptyString -> ends_in chars l = false -> all_in chars post = true ->
  rstrip chars (l ++ post) = l.
Proof.
  intros N E P. induction l as [|x l IH]; [contradiction|].
  rewrite append_cons, rstrip_cons. destruct l as [|y l].
  - simpl in *. now rewrite (rstrip_all_in _ _ P), E.
  - rewrite IH; [reflexivity | discriminate | exact E].
Qed.

Lemma strip_line (chars l post : string) :
  l <> EmptyString -> starts_in chars l = false -> ends_in chars l = false ->
  all_in chars post = true ->
  strip chars (l ++ post) = l.
Proof.
  intros N S E P. unfold strip.
  destruct l as [|x l]; [contradiction|].
  simpl in S. rewrite append_cons, lstrip_cons, S, <- append_cons.
  now apply rstrip_line.
Qed.

(** The lines of a text made of lines joined by line feeds. *)
Lemma lines_go_through (l rest cur : string) :
  free_of (char LF) l = true ->
  lines_go (l ++ rest) cur = lines_go rest (cur ++ l).
Proof.
  revert cur. induction l as [|x l IH]; intros cur H; simpl.
  - now rewrite append_empty_r.
  - pose proof (free_of_char _ _ _ H) as E. rewrite Ascii.eqb_sym in E.
    rewrite E, IH by exact (free_of_tail _ _ _ H).
    now rewrite append_assoc.
Qed.

Lemma lines_go_join (lines : list string) :
  forallb (fun l => negb (String.eqb l EmptyString) && free_of (char LF) l) lines
  = true ->
  lines_go (join (char LF) lines) EmptyString = with_line_ends lines.
Proof.
  induction lines as [|l lines IH]; [reflexivity|].
  intros H. apply andb_prop in H as [Hl Hs]. apply andb_prop in Hl as [N F].
  destruct lines as [|m lines].
  - change (join (char LF) [l]) with l.
    rewrite <- (append_empty_r l) at 1. rewrite lines_go_through by exact F.
    simpl. destruct l; [discriminate | reflexivity].
  - change (join (char LF) (l :: m :: lines))
      with (l ++ String LF (join (char LF) (m :: lines))).
    rewrite lines_go_through by exact F.
    change (with_line_ends (l :: m :: lines))
      with ((l ++ char LF) :: with_line_ends (m :: lines)).
    rewrite <- (IH Hs). reflexivity.
Qed.

Lemma universal_newlines_without_cr (s : string) :
  free_of (char CR) s = true -> universal_newlines s false = s.
Proof.
  induction s as [|x s IH]; simpl; [reflexivity|].
  rewrite orb_false_r. intros H. apply andb_prop in H as [Hx Hs].
  destruct (Ascii.eqb x CR); [discriminate|].
  now rewrite andb_false_r, (IH Hs).
Qed.

Lemma mem_char_in_cons (c : ascii) (chars : string) (x : ascii) :
  mem x (char c) = true -> mem x (String c chars) = true.
Proof.
  unfold char. cbn [mem]. rewrite orb_false_r. intros ->. reflexivity.
Qed.

Lemma mem_in_cons (c : ascii) (chars : string) (x : ascii) :
  mem x chars = true -> mem x (String c chars) = true.
Proof. cbn [mem]. intros ->. apply orb_true_r. Qed.

Lemma mem_lf_newline (x : ascii) :
  mem x (char LF) = true -> mem x newline_chars = true.
Proof. apply mem_in_cons. Qed.

Lemma mem_cr_newline (x : ascii) :
  mem x (char CR) = true -> mem x newline_chars = true.
Proof. apply mem_char_in_cons. Qed.

Lemma clean_row_facts (c : ascii) (fields : list string) :
  clean_row c fields = true ->
  join (char c) fields <> EmptyString
  /\ starts_in line_end_chars (join (char c) fields) = false
  /\ ends_in line_end_chars (join (char c) fields) = false
  /\ forallb (free_of (String c newline_chars)) fields = true.
Proof.
  unfold clean_row. intros H.
  apply andb_prop in H as [H F]. apply andb_prop in H as [H E].
  apply andb_prop in H as [N S].
  repeat split; try (now apply negb_true_iff); try exact F.
  intros J. now rewrite J in N.
Qed.

(** The line of a clean row holds neither a carriage return nor a line
    feed, the separator being neither. *)
Lemma clean_row_line (c : ascii) (fields : list string) :
  mem c newline_chars = false ->
  clean_row c fields = true ->
  free_of newline_chars (join (char c) fields) = true.
Proof.
  intros C H. destruct (clean_row_facts _ _ H) as (_ & _ & _ & F).
  apply free_of_join.
  - unfold char. cbn [free_of]. now rewrite C.
  - revert F. apply forallb_mono. intros f. apply free_of_mono, mem_in_cons.
Qed.

(** One line of a clean row, followed by line end characters or by nothing,
    is read back as the row. *)
Lemma row_of_line_clean (c : ascii) (fields : list string) (post : string) :
  clean_row c fields = true ->
  all_in line_end_chars post = true ->
  row_of_line (char c) (join (char c) fields ++ post) = Return fields.
Proof.
  intros H P. destruct (clean_row_facts _ _ H) as (N & S & E & F).
  unfold row_of_line. rewrite strip_line by assumption.
  destruct fields as [|f fields]; [now destruct N|].
  unfold split, char at 1. rewrite split_go_join; [reflexivity|].
  revert F. apply forallb_mono. intros g. apply free_of_mono, mem_char_in_cons.
Qed.

Lemma read_lines_clean (c : ascii) (rows : list (list string)) :
  forallb (clean_row c) rows = true ->
  traverse (row_of_line (char c)) (with_line_ends (map (join (char c)) rows))
  = Return rows.
Proof.
  induction rows as [|r rows IH]; [reflexivity|].
  intros H. apply andb_prop in H as [Hr Hs].
  destruct rows as [|r2 rows].
  - change (with_line_ends (map (join (char c)) [r])) with [join (char c) r].
    cbn [traverse]. rewrite <- (append_empty_r (join (char c) r)).
    rewrite row_of_line_clean by (exact Hr || reflexivity). reflexivity.
  - change (with_line_ends (map (join (char c)) (r :: r2 :: rows)))
      with ((join (char c) r ++ char LF)
              :: with_line_ends (map (join (char c)) (r2 :: rows))).
    cbn [traverse]. rewrite row_of_line_clean by (exact Hr || reflexivity).
    rewrite (IH Hs). reflexivity.
Qed.

Lemma file_lines_clean (v : pyversion) (c : ascii) (rows : list (list string)) :
  mem c newline_chars = false ->
  forallb (clean_row c) rows = true ->
  file_lines v (join (char LF) (map (join (char c)) rows))
  = with_line_ends (map (join (char c)) rows).
Proof.
  intros C H.
  assert (L : forallb (free_of newline_chars) (map (join (char c)) rows) = true).
  { rewrite forallb_over_map. revert H. apply forallb_mono. intros r.
    now apply clean_row_line. }
  assert (G : lines_go (join (char LF) (map (join (char c)) rows)) EmptyString
              = with_line_ends (map (join (char c)) rows)).
  { apply lines_go_join. rewrite forallb_over_map.
    rewrite forallb_forall in H |- *. intros r I. specialize (H r I).
    destruct (clean_row_facts _ _ H) as (N & _).
    apply andb_true_intro. split.
    - apply negb_true_iff, String.eqb_neq, N.
    - apply (free_of_mono _ newline_chars); [apply mem_lf_newline|].
      now apply clean_row_line. }
  destruct v; simpl; [exact G|].
  rewrite universal_newlines_without_cr; [exact G|].
  apply free_of_join; [reflexivity|].
  revert L. apply forallb_mono. intros l. apply free_of_mono, mem_cr_newline.
Qed.

Lemma render_table (seperator : string) (table : list (list scalar)) :
  render seperator (payload_of table) = Return (rendered seperator table).
Proof.
  unfold render, payload_of, rendered, texts_of. simpl.
  assert (T : traverse (fun e => fields ← iter_entry e;
                                 Return (join seperator (map str fields)))
                (map (ERow KTuple) table)
              = Return (map (join seperator) (map (map str) table))).
  { induction table as [|r table IH]; [reflexivity|].
    simpl. simpl in IH. rewrite IH. reflexivity. }
  simpl in T. rewrite T. reflexivity.
Qed.

Lemma read_rendered (v : pyversion) (fs : gmap string string)
    (name seperator : string) (c : ascii) (table : list (list scalar)) :
  effective_separator name seperator = char c ->
  mem c newline_chars = false ->
  forallb (clean_row c) (texts_of table) = true ->
  fs !! name = Some (rendered (char c) table) ->
  TextInterface.read v fs (__init__ (OStr name)) seperator
  = Return (texts_of table).
Proof.
  intros S C H F. rewrite read_unfold, F, S. unfold rendered.
  rewrite file_lines_clean by assumption.
  now apply read_lines_clean.
Qed.

(** X6.  [read] inverts the text that line 92 makes of a table.  Let the
    separator in effect be one character that is neither a carriage return
    nor a line feed, and let every row be clean: its line is not empty and
    neither begins nor ends with a carriage return, a line feed or a tab,
    and none of its fields holds the separator, a carriage return or a line
    feed.  Then reading a file that holds the rows joined by line feeds,
    their fields joined by the separator, returns the texts of the fields,
    row by row, on both interpreter generations. *)
Theorem read_inverts_rendering (v : pyversion) (fs : gmap string string)
    (name seperator : string) (c : ascii) (table : list (list scalar)) :
  effective_separator name seperator = char c ->
  mem c newline_chars = false ->
  forallb (clean_row c) (texts_of table) = true ->
  fs !! name = Some (rendered (char c) table) ->
  render (char c) (payload_of table) = Return (rendered (char c) table)
  /\ TextInterface.read v fs (__init__ (OStr name)) seperator
     = Return (texts_of table).
Proof.
  intros S C H F. split; [apply render_table|].
  now apply read_rendered with (c := c).
Qed.

Lemma read_inverts_rendering_witness :
  effective_separator "out.csv" " " = char ","
  /\ mem "," newline_chars = false
  /\ forallb (clean_row ",") (texts_of [[SStr "a"; SInt 1]; [SStr ""; SNone]]) = true
  /\ ({["out.csv" := rendered (char ",") [[SStr "a"; SInt 1]; [SStr ""; SNone]]]}
        : gmap string string) !! "out.csv"
     = Some (rendered (char ",") [[SStr "a"; SInt 1]; [SStr ""; SNone]])
  /\ TextInterface.read Py3
       {["out.csv" := rendered (char ",") [[SStr "a"; SInt 1]; [SStr ""; SNone]]]}
       (__init__ (OStr "out.csv")) " "
     = Return [["a"; "1"]; [""; "None"]].
Proof.
  split; [reflexivity|]. split; [reflexivity|]. split; [reflexivity|].
  split; [reflexivity|].
  exact (proj2 (read_inverts_rendering Py3
                  {["out.csv" := rendered (char ",") [[SStr "a"; SInt 1]; [SStr ""; SNone]]]}
                  "out.csv" " " "," [[SStr "a"; SInt 1]; [SStr ""; SNone]]
                  eq_refl eq_refl eq_refl eq_refl)).
Defined.

(** ** The text adapter: fields lost at the ends of a line *)

Lemma ends_in_mono (small big s : string) :
  (forall x, mem x small = true -> mem x big = true) ->
  ends_in big s = false -> ends_in small s = false.
Proof.
  intros M. induction s as [|x s IH]; [reflexivity|].
  destruct s as [|y s].
  - simpl. intros H. destruct (mem x small) eqn:E; [|reflexivity].
    now rewrite (M x E) in H.
  - exact IH.
Qed.

Lemma append_nonempty_r (a : string) (x : ascii) : a ++ char x <> EmptyString.
Proof. destruct a; discriminate. Qed.

Lemma split_go_first (c : ascii) (s cur : string) :
  cur <> EmptyString ->
  first_field (split_go (char c) s 0 cur) <> EmptyString.
Proof.
  revert cur. induction s as [|x s IH]; intros cur N; simpl; [exact N|].
  destruct (Ascii.eqb c x); simpl; [exact N|].
  apply IH, append_nonempty_r.
Qed.

Lemma last_field_cons (f : string) (row : list string) :
  row <> [] -> last_field (f :: row) = last_field row.
Proof. destruct row; [contradiction | reflexivity]. Qed.

Lemma split_go_last (c : ascii) (s cur : string) :
  (s = EmptyString -> cur <> EmptyString) ->
  ends_in (char c) s = false ->
  last_field (split_go (char c) s 0 cur) <> EmptyString.
Proof.
  revert cur. induction s as [|x s IH]; intros cur N E.
  - simpl. now apply N.
  - cbn [split_go startswith char]. rewrite andb_true_r.
    destruct (Ascii.eqb c x) eqn:Q.
    + rewrite last_field_cons by apply split_go_nonempty.
      destruct s as [|y s].
      * simpl in E. rewrite orb_false_r, Ascii.eqb_sym, Q in E. discriminate.
      * apply IH; [discriminate | exact E].
    + apply IH; [intros _; apply append_nonempty_r|].
      destruct s; [reflexivity | exact E].
Qed.

(** The row of a line whose separator is one of the stripped characters:
    a single empty field, or a row with neither an empty first field nor an
    empty last field. *)
Lemma row_of_stripped_line (c : ascii) (line : string) :
  mem c line_end_chars = true ->
  let row := split_go (char c) (strip line_end_chars line) 0 EmptyString in
  row = [EmptyString]
  \/ (first_field row <> EmptyString /\ last_field row <> EmptyString).
Proof.
  intros C row. subst row.
  destruct (strip_decompose line_end_chars line) as (_ & _ & _ & _ & _ & S & E).
  destruct (strip line_end_chars line) as [|x s]; [left; reflexivity|].
  right. split.
  - change (mem x line_end_chars = false) in S.
    cbn [split_go startswith char]. rewrite andb_true_r.
    destruct (Ascii.eqb c x) eqn:Q.
    + apply Ascii.eqb_eq in Q as <-. congruence.
    + now apply split_go_first.
  - apply split_go_last; [discriminate|].
    revert E. apply ends_in_mono. intros y H.
    unfold char in H. cbn [mem] in H. rewrite orb_false_r in H.
    apply Ascii.eqb_eq in H as ->. exact C.
Qed.

(** X8.  A [.tsv] file loses the empty fields at the ends of its lines:
    since the tab is both the separator and a stripped character, whenever
    [read] returns, no row it returns begins or ends with an empty field,
    unless the row is the single empty field of a blank line. *)
Theorem tsv_rows_lose_outer_empty_fields (v : pyversion) (fs : gmap string string)
    (name content seperator : string) (rows : list (list string)) :
  endswith name ".tsv" = true ->
  fs !! name = Some content ->
  TextInterface.read v fs (__init__ (OStr name)) seperator = Return rows ->
  Forall (fun row => row = [EmptyString]
                     \/ (first_field row <> EmptyString
                         /\ last_field row <> EmptyString)) rows.
Proof.
  intros T H R. pose proof (effective_separator_tsv name seperator T) as S.
  rewrite read_rows with (content := content) in R;
    [|rewrite S; discriminate | exact H].
  injection R as <-. rewrite S.
  apply Forall_map, Forall_forall. intros line _.
  now apply row_of_stripped_line.
Qed.

Lemma tsv_rows_lose_outer_empty_fields_witness :
  endswith "pores.tsv" ".tsv" = true
  /\ ({["pores.tsv" := String TAB ("a" ++ String TAB (char TAB))]}
        : gmap string string) !! "pores.tsv"
     = Some (String TAB ("a" ++ String TAB (char TAB)))
  /\ TextInterface.read Py2
       {["pores.tsv" := String TAB ("a" ++ String TAB (char TAB))]}
       (__init__ (OStr "pores.tsv")) " "
     = Return [["a"]]
  /\ Forall (fun row => row = [EmptyString]
                        \/ (first_field row <> EmptyString
                            /\ last_field row <> EmptyString)) [["a"]].
Proof.
  assert (L : ({["pores.tsv" := String TAB ("a" ++ String TAB (char TAB))]}
                 : gmap string string) !! "pores.tsv"
              = Some (String TAB ("a" ++ String TAB (char TAB)))) by reflexivity.
  assert (R : TextInterface.read Py2
                {["pores.tsv" := String TAB ("a" ++ String TAB (char TAB))]}
                (__init__ (OStr "pores.tsv")) " " = Return [["a"]])
    by reflexivity.
  split; [reflexivity|]. split; [exact L|]. split; [exact R|].
  exact (tsv_rows_lose_outer_empty_fields Py2
           {["pores.tsv" := String TAB ("a" ++ String TAB (char TAB))]}
           "pores.tsv" (String TAB ("a" ++ String TAB (char TAB))) " "
           [["a"]] eq_refl L R).
Defined.

(** ** The text adapter: line ends *)

Lemma lstrip_all_in (chars s : string) :
  all_in chars s = true -> lstrip chars s = EmptyString.
Proof.
  induction s as [|x s IH]; simpl; [reflexivity|].
  intros H. apply andb_prop in H as [Hx Hs]. now rewrite Hx, (IH Hs).
Qed.

Lemma rstrip_app_all_in (chars a post : string) :
  all_in chars post = true -> rstrip chars (a ++ post) = rstrip chars a.
Proof.
  intros P. induction a as [|x a IH].
  - now apply rstrip_all_in.
  - now rewrite append_cons, !rstrip_cons, IH.
Qed.

Lemma lstrip_app (chars l post : string) :
  lstrip chars (l ++ post) =
    match lstrip chars l with
    | EmptyString => lstrip chars post
    | r => r ++ post
    end.
Proof.
  induction l as [|x l IH]; [reflexivity|].
  rewrite append_cons, !lstrip_cons. destruct (mem x chars); [exact IH | reflexivity].
Qed.

(** Stripped characters that follow a line do not change what is left of
    it. *)
Lemma strip_app_all_in (chars l post : string) :
  all_in chars post = true -> strip chars (l ++ post) = strip chars l.
Proof.
  intros P. unfold strip. rewrite lstrip_app.
  destruct (lstrip chars l) as [|x r] eqn:E.
  - now rewrite (lstrip_all_in _ _ P).
  - now apply rstrip_app_all_in.
Qed.

Lemma lines_go_terminated (pre : string) (lines : list string) :
  free_of (char LF) pre = true ->
  forallb (free_of (char LF)) lines = true ->
  lines_go (join (pre ++ char LF) lines) EmptyString
  = terminated (pre ++ char LF) lines.
Proof.
  intros P. induction lines as [|l lines IH]; [reflexivity|].
  intros H. apply andb_prop in H as [F Hs].
  destruct lines as [|m lines].
  - change (join (pre ++ char LF) [l]) with l.
    rewrite <- (append_empty_r l) at 1. rewrite lines_go_through by exact F.
    simpl. now destruct l.
  - change (join (pre ++ char LF) (l :: m :: lines))
      with (l ++ (pre ++ char LF) ++ join (pre ++ char LF) (m :: lines)).
    change (terminated (pre ++ char LF) (l :: m :: lines))
      with ((l ++ pre ++ char LF) :: terminated (pre ++ char LF) (m :: lines)).
    rewrite <- (IH Hs).
    rewrite lines_go_through by exact F.
    rewrite append_assoc, lines_go_through by exact P.
    simpl. now rewrite append_assoc.
Qed.

Lemma universal_newlines_through (l rest : string) :
  free_of (char CR) l = true ->
  universal_newlines (l ++ String CR rest) false
  = l ++ String LF (universal_newlines rest true).
Proof.
  induction l as [|x l IH]; [reflexivity|].
  intros H. pose proof (free_of_char _ _ _ H) as E. rewrite Ascii.eqb_sym in E.
  rewrite !append_cons. cbn [universal_newlines].
  now rewrite E, andb_false_r, (IH (free_of_tail _ _ _ H)).
Qed.

Lemma universal_newlines_crlf (lines : list string) :
  forallb (free_of (char CR)) lines = true ->
  universal_newlines (join CRLF lines) false = join LF_only lines.
Proof.
  induction lines as [|l lines IH]; [reflexivity|].
  intros H. apply andb_prop in H as [F Hs].
  destruct lines as [|m lines].
  - now apply universal_newlines_without_cr.
  - change (join CRLF (l :: m :: lines))
      with (l ++ String CR (String LF (join CRLF (m :: lines)))).
    change (join LF_only (l :: m :: lines))
      with (l ++ String LF (join LF_only (m :: lines))).
    rewrite universal_newlines_through by exact F.
    cbn [universal_newlines]. change (Ascii.eqb LF CR) with false.
    change (Ascii.eqb LF LF) with true. cbv iota. cbn [andb].
    now rewrite (IH Hs).
Qed.

Lemma traverse_terminated (seperator : string) (lines : list string) :
  traverse (row_of_line seperator) (terminated CRLF lines)
  = traverse (row_of_line seperator) (terminated LF_only lines).
Proof.
  induction lines as [|l lines IH]; [reflexivity|].
  destruct lines as [|m lines]; [reflexivity|].
  change (terminated CRLF (l :: m :: lines))
    with ((l ++ CRLF) :: terminated CRLF (m :: lines)).
  change (terminated LF_only (l :: m :: lines))
    with ((l ++ LF_only) :: terminated LF_only (m :: lines)).
  cbn [traverse]. rewrite IH. unfold row_of_line.
  now rewrite !strip_app_all_in by reflexivity.
Qed.

(** X9.  Windows line ends are tolerated: a file whose lines end in
    carriage return and line feed is read exactly as the file with the same
    lines ending in a line feed, on both interpreter generations and for
    every separator (the lines themselves holding neither character). *)
Theorem crlf_file_reads_like_lf_file (v : pyversion) (fs fs' : gmap string string)
    (name seperator : string) (lines : list string) :
  forallb (free_of newline_chars) lines = true ->
  fs !! name = Some (join CRLF lines) ->
  fs' !! name = Some (join LF_only lines) ->
  TextInterface.read v fs (__init__ (OStr name)) seperator
  = TextInterface.read v fs' (__init__ (OStr name)) seperator.
Proof.
  intros H F F'. rewrite !read_unfold, F, F'.
  assert (Hcr : forallb (free_of (char CR)) lines = true).
  { revert H. apply forallb_mono. intros l. apply free_of_mono, mem_cr_newline. }
  assert (Hlf : forallb (free_of (char LF)) lines = true).
  { revert H. apply forallb_mono. intros l. apply free_of_mono, mem_lf_newline. }
  destruct v; unfold file_lines.
  - change CRLF with (char CR ++ char LF). change LF_only with (EmptyString ++ char LF).
    rewrite !lines_go_terminated by (reflexivity || exact Hlf).
    apply traverse_terminated.
  - rewrite universal_newlines_crlf by exact Hcr.
    rewrite universal_newlines_without_cr; [reflexivity|].
    apply free_of_join; [reflexivity | exact Hcr].
Qed.

Lemma crlf_file_reads_like_lf_file_witness :
  forallb (free_of newline_chars) ["a,1"; ""; "b,2"] = true
  /\ ({["w.csv" := join CRLF ["a,1"; ""; "b,2"]]} : gmap string string) !! "w.csv"
     = Some (join CRLF ["a,1"; ""; "b,2"])
  /\ ({["w.csv" := join LF_only ["a,1"; ""; "b,2"]]} : gmap string string) !! "w.csv"
     = Some (join LF_only ["a,1"; ""; "b,2"])
  /\ TextInterface.read Py2 {["w.csv" := join CRLF ["a,1"; ""; "b,2"]]}
       (__init__ (OStr "w.csv")) " "
     = TextInterface.read Py2 {["w.csv" := join LF_only ["a,1"; ""; "b,2"]]}
         (__init__ (OStr "w.csv")) " ".
Proof.
  split; [reflexivity|]. split; [reflexivity|]. split; [reflexivity|].
  exact (crlf_file_reads_like_lf_file Py2
           {["w.csv" := join CRLF ["a,1"; ""; "b,2"]]}
           {["w.csv" := join LF_only ["a,1"; ""; "b,2"]]}
           "w.csv" " " ["a,1"; ""; "b,2"] eq_refl eq_refl eq_refl).
Defined.

(** ** The relational adapter: batches *)

Section TransactionFacts.

Variable accepts : connection -> string -> bool.
Variable answer : connection -> string -> list (list scalar).

(** X12.  Splitting a batch in two calls of [insert] commits the same
    statements in the same order as the single call, with one commit more,
    whenever the server executes every statement either way. *)
Theorem insert_in_two_batches (c : connection) (table : string)
    (first second : list (list scalar)) :
  first_rejected accepts answer c table (first ++ second) = None ->
  first_rejected accepts answer c table first = None ->
  first_rejected accepts answer (fst (insert accepts answer c table first))
    table second = None ->
  committed (fst (insert accepts answer
                    (fst (insert accepts answer c table first)) table second))
  = committed (fst (insert accepts answer c table (first ++ second)))
  /\ commits (fst (insert accepts answer
                     (fst (insert accepts answer c table first)) table second))
     = S (commits (fst (insert accepts answer c table (first ++ second)))).
Proof.
  intros W A B.
  destruct (insert_all_accepted accepts answer _ _ _ W) as (_ & _ & Cw & Nw).
  destruct (insert_all_accepted accepts answer _ _ _ A) as (_ & Pa & Ca & Na).
  destruct (insert_all_accepted accepts answer _ _ _ B) as (_ & _ & Cb & Nb).
  rewrite Cb, Nb, Cw, Nw, Pa, Ca, Na, map_app, <- !app_assoc. split; reflexivity.
Qed.

End TransactionFacts.

Lemma insert_in_two_batches_witness :
  first_rejected picky_server no_answer fresh_connection "t"
    ([[SInt 1]] ++ [[SInt 3]; [SInt 4]]) = None
  /\ first_rejected picky_server no_answer fresh_connection "t" [[SInt 1]] = None
  /\ first_rejected picky_server no_answer
       (fst (insert picky_server no_answer fresh_connection "t" [[SInt 1]]))
       "t" [[SInt 3]; [SInt 4]] = None
  /\ commits (fst (insert picky_server no_answer
                     (fst (insert picky_server no_answer fresh_connection "t"
                             [[SInt 1]])) "t" [[SInt 3]; [SInt 4]]))
     = S (commits (fst (insert picky_server no_answer fresh_connection "t"
                          ([[SInt 1]] ++ [[SInt 3]; [SInt 4]])))).
Proof.
  split; [reflexivity|]. split; [reflexivity|]. split; [reflexivity|].
  exact (proj2 (insert_in_two_batches picky_server no_answer fresh_connection "t"
                  [[SInt 1]] [[SInt 3]; [SInt 4]] eq_refl eq_refl eq_refl)).
Defined.

(** ** The relational adapter: literals *)

Lemma append_char_inj (a b : string) (x : ascii) :
  a ++ char x = b ++ char x -> a = b.
Proof.
  revert b. induction a as [|y a IH]; intros [|z b] H; simpl in H.
  - reflexivity.
  - injection H as _ H. now destruct b.
  - injection H as _ H. now destruct a.
  - injection H as -> H. f_equal. now apply IH.
Qed.

Lemma escape_char_head (c : ascii) : exists tail, escape_char c = String c tail.
Proof.
  unfold escape_char. destruct (Ascii.eqb_spec DQUOTE c) as [<-|_]; [now eexists|].
  destruct (Ascii.eqb_spec BACKSLASH c) as [<-|_]; now eexists.
Qed.

(** Doubling quotes and backslashes loses nothing: texts that differ have
    escaped texts that differ. *)
Lemma escaped_inj (s1 s2 : string) : escaped s1 = escaped s2 -> s1 = s2.
Proof.
  revert s2. induction s1 as [|x s1 IH]; intros [|y s2] H.
  - reflexivity.
  - simpl in H. destruct (escape_char_head y) as (t & E). now rewrite E in H.
  - simpl in H. destruct (escape_char_head x) as (t & E). now rewrite E in H.
  - cbn [escaped] in H.
    destruct (escape_char_head x) as (tx & Ex), (escape_char_head y) as (ty & Ey).
    assert (x = y) as <- by (rewrite Ex, Ey in H; now injection H).
    f_equal. apply IH. clear Ex Ey. unfold escape_char in H.
    destruct (Ascii.eqb DQUOTE x); [now injection H|].
    destruct (Ascii.eqb BACKSLASH x); now injection H.
Qed.

Lemma map_injective {A B : Type} (f : A -> B) (l1 l2 : list A) :
  (forall a b, f a = f b -> a = b) -> map f l1 = map f l2 -> l1 = l2.
Proof.
  intros I. revert l2. induction l1 as [|a l1 IH]; intros [|b l2] H;
    try discriminate; [reflexivity|].
  injection H as H1 H2. f_equal; [exact (I a b H1) | exact (IH l2 H2)].
Qed.

(** X13.  Quoting is lossless on strings: two string fields with the same
    literal are the same string, and two rows of string fields with the
    same literals, field by field, are the same row. *)
Theorem string_literals_are_distinct (s1 s2 : string) (r1 r2 : list string) :
  (literal (SStr s1) = literal (SStr s2) -> s1 = s2)
  /\ (map (fun s => literal (SStr s)) r1 = map (fun s => literal (SStr s)) r2 ->
      r1 = r2).
Proof.
  assert (I : forall a b, literal (SStr a) = literal (SStr b) -> a = b).
  { intros a b H. unfold literal in H. simpl in H.
    rewrite !escape_charwise in H. injection H as H.
    now apply escaped_inj, append_char_inj with (x := DQUOTE). }
  split; [apply I | now apply map_injective].
Qed.

Lemma string_literals_are_distinct_witness :
  literal (SStr "a\") = literal (SStr "a\") /\ "a\" = "a\".
Proof.
  split; [reflexivity|].
  exact (proj1 (string_literals_are_distinct "a\" "a\" [] []) eq_refl).
Defined.

(** X14.  An empty field is written as the string of its text: [None] goes
    out as the quoted word None, not as NULL, zero as the quoted digit, and
    [False] as the quoted word False, so that the statement cannot tell an
    empty field from the string field that spells it. *)
Theorem empty_field_is_its_text (item : scalar) :
  falsy item = true -> literal item = literal (SStr (str item)).
Proof.
  intros H. unfold literal. rewrite H, orb_true_r. reflexivity.
Qed.

Lemma empty_field_is_its_text_witness :
  falsy SNone = true
  /\ _build_insert [SNone; SInt 0] = _build_insert [SStr "None"; SStr "0"].
Proof.
  split; [reflexivity|].
  unfold _build_insert. cbn [map].
  rewrite (empty_field_is_its_text SNone eq_refl).
  rewrite (empty_field_is_its_text (SInt 0) eq_refl). reflexivity.
Defined.

(** ** The factory: what it can return *)

Lemma lower_char_idempotent (c : ascii) : lower_char (lower_char c) = lower_char c.
Proof. destruct c as [[] [] [] [] [] [] [] []]; reflexivity. Qed.

Lemma lower_idempotent (s : string) : lower (lower s) = lower s.
Proof.
  induction s as [|c s IH]; simpl; [reflexivity|].
  now rewrite lower_char_idempotent, IH.
Qed.

(** The factory in terms of the lower-cased tag and of the presence of a
    keyword named [db_type]. *)
Lemma factory_by_tag (v : pyversion) (db_type : string)
    (kwargs : list (string * object)) :
  DatabaseFactory v db_type kwargs =
    if existsb (String.eqb "db_type") (map fst kwargs)
    then Raise TypeError
    else if existsb (String.eqb (lower db_type)) GOOGLE_SPREADSHEET_TYPES
    then Raise (NameError "title")
    else if existsb (String.eqb (lower db_type)) TEXT_TABLE_TYPES
    then match v with
         | Py2 => Return (Some (Text (__init__ (OBuiltin "file"))))
         | Py3 => Raise (NameError "file")
         end
    else if String.eqb (lower db_type) "mysql"
    then Raise (NameError "db")
    else Return None.
Proof.
  unfold DatabaseFactory, bind_factory_arguments.
  destruct (existsb (String.eqb "db_type") (map fst kwargs)); [reflexivity|].
  cbn [mbind result_bind].
  destruct (existsb (String.eqb (lower db_type)) GOOGLE_SPREADSHEET_TYPES);
    [destruct v; reflexivity|].
  destruct (existsb (String.eqb (lower db_type)) TEXT_TABLE_TYPES);
    [destruct v; reflexivity|].
  destruct (String.eqb (lower db_type) "mysql"); destruct v; reflexivity.
Qed.

(** X15.  Of its keyword arguments the factory uses nothing: unless one of
    them is named [db_type], in which case the call raises [TypeError]
    before the body runs, the outcome depends on the interpreter generation
    and on the lower-cased tag only.  The letter case of the tag and the
    keyword arguments, present or absent, are without effect. *)
Theorem factory_depends_on_tag_only (v : pyversion) (tag tag' : string)
    (kwargs kwargs' : list (string * object)) :
  existsb (String.eqb "db_type") (map fst kwargs) = false ->
  existsb (String.eqb "db_type") (map fst kwargs') = false ->
  lower tag = lower tag' ->
  DatabaseFactory v tag kwargs = DatabaseFactory v tag' kwargs'
  /\ DatabaseFactory v (lower tag) kwargs' = DatabaseFactory v tag kwargs.
Proof.
  intros K K' H. rewrite !factory_by_tag, K, K', lower_idempotent, H.
  split; reflexivity.
Qed.

Lemma factory_depends_on_tag_only_witness :
  existsb (String.eqb "db_type") (map fst [("file", OStr "a.txt")]) = false
  /\ existsb (String.eqb "db_type") (map fst (@nil (string * object))) = false
  /\ lower "TeXt" = lower "text"
  /\ DatabaseFactory Py2 "TeXt" [("file", OStr "a.txt")]
     = DatabaseFactory Py2 "text" [].
Proof.
  split; [reflexivity|]. split; [reflexivity|]. split; [reflexivity|].
  exact (proj1 (factory_depends_on_tag_only Py2 "TeXt" "text"
                  [("file", OStr "a.txt")] [] eq_refl eq_refl eq_refl)).
Defined.


Example factory_db_type_keyword (v : pyversion) :
  DatabaseFactory v "csv" [("db_type", OStr "text")] = Raise TypeError.
Proof. reflexivity. Qed.

(** ** The text adapter: when [write] succeeds *)

(** X19.  Among [None], booleans, integers, texts, and lists and tuples of
    rows, [write] accepts one kind of data only: when the call returns
    normally, the interpreter is Python 3, the adapter is bound to a path
    and the data is a non-empty text.  No call on Python 2 and no call with
    a list or a tuple of rows returns normally. *)
Theorem write_succeeds_for_py3_text_only (v : pyversion) (fs : gmap string string)
    (self : TextInterface.t) (data : payload) (seperator : string) :
  snd (write v fs self data seperator) = Return tt ->
  v = Py3
  /\ (exists name, file self = OStr name)
  /\ (exists c s, data = DScalar (SStr (String c s))).
Proof.
  unfold write. destruct self as [f]. simpl.
  destruct v, data as [[| | |[|c s]]|k [|r rows]], f as [name| | | | | |]; simpl;
    try discriminate.
  intros _. repeat split; eauto.
Qed.

Lemma write_succeeds_for_py3_text_only_witness :
  snd (write Py3 ∅ (__init__ (OStr "out.txt")) (DScalar (SStr "ab")) " ")
  = Return tt
  /\ Py3 = Py3
  /\ (exists name, file (__init__ (OStr "out.txt")) = OStr name)
  /\ (exists c s, DScalar (SStr "ab") = DScalar (SStr (String c s))).
Proof.
  split; [reflexivity|].
  exact (write_succeeds_for_py3_text_only Py3 ∅ (__init__ (OStr "out.txt"))
           (DScalar (SStr "ab")) " " eq_refl).
Defined.
